(** * A shallow embedding of mini-swe-agent's model client and CRA clients

    Sources embedded here:
    - [src/minisweagent/models/litellm_model.py]: [LitellmModel._query]
      (with its tenacity retry decorator) and [LitellmModel.query];
    - [src/minisweagent/tools/context_retrieval.py]:
      [_get_cra_retrieval_url], [context_retrieval_tool];
    - [src/minisweagent/utils/repository.py]: [get_cra_base_url],
      [upload_repository], [delete_repository].

    The external services (the completion provider, the cost calculator,
    the HTTP transport and the JSON body of a response) are parameters of
    the definitions: every theorem holds for all of their behaviours.
    Monetary costs are Python floats, i.e. IEEE-754 binary64 numbers:
    Rocq's primitive floats, whose [+] and [<=] are those of Python.  A
    Python [str] is represented by its UTF-8 bytes; the CPython behaviour
    modelled ([int(str)], [repr], [str(float)]) is that of CPython 3.11. *)

From Stdlib Require Import PrimFloat SpecFloat FloatOps FloatAxioms.
From Stdlib Require Import String Ascii List ZArith Bool Lia.
From Stdlib Require Import Sorting.Sorted.
Import ListNotations.
Open Scope string_scope.
Set Warnings "-register-all,-inexact-float".

(* ------------------------------------------------------------------ *)
(** ** Python values, dictionaries and exceptions *)

(** JSON-like Python values; a dict keeps insertion order. *)
Inductive pyval : Type :=
| PNone
| PBool (b : bool)
| PInt (z : Z)
| PStr (s : string)
| PList (l : list pyval)
| PDict (d : list (string * pyval)).

Definition dict := list (string * pyval).

(** [d.get(k)]: the first binding of [k]. *)
Fixpoint dict_lookup (k : string) (d : dict) : option pyval :=
  match d with
  | [] => None
  | (k', v) :: d' => if String.eqb k k' then Some v else dict_lookup k d'
  end.

(** [k in d] *)
Definition dict_in (k : string) (d : dict) : bool :=
  match dict_lookup k d with Some _ => true | None => false end.

(** [d.get(k, default)] *)
Definition dict_get (k : string) (d : dict) (default : pyval) : pyval :=
  match dict_lookup k d with Some v => v | None => default end.

(** [d[k] = v]: an existing key keeps its position, a new key goes last. *)
Fixpoint dict_set (k : string) (v : pyval) (d : dict) : dict :=
  match d with
  | [] => [(k, v)]
  | (k', v') :: d' =>
      if String.eqb k k' then (k', v) :: d' else (k', v') :: dict_set k v d'
  end.

(** [d1 | d2]: the keys of [d1] then the new keys of [d2]; [d2] wins. *)
Definition dict_merge (d1 d2 : dict) : dict :=
  fold_left (fun acc kv => dict_set (fst kv) (snd kv) acc) d2 d1.

Definition dict_keys (d : dict) : list string := map fst d.

(** Kinds of the litellm exceptions the retry decorator names, and any
    other provider exception. *)
Inductive provider_error_kind : Type :=
| UnsupportedParamsError
| NotFoundError
| PermissionDeniedError
| ContextWindowExceededError
| APIError
| AuthenticationError
| KeyboardInterrupt
| OtherProviderError (name : string).

(** Kinds of the [requests.exceptions] the CRA clients distinguish.
    [JSONDecodeError] is both a [RequestException] and a [ValueError]. *)
Inductive requests_error_kind : Type :=
| ConnectionError
| HTTPError
| JSONDecodeError
| OtherRequestException.

Inductive exn : Type :=
| KeyError (k : string)
| IndexError
| TypeError (msg : string)
| ValueError (msg : string)
| RuntimeError (msg : string)
| ProviderError (kind : provider_error_kind) (msg : string)
| RetryError (last : exn)
| RequestsError (kind : requests_error_kind) (msg : string)
| ContextRetrievalError (msg : string)
| RepositoryError (msg : string)
| UnboundLocalError (name : string).

(** [except Exception] catches everything but [KeyboardInterrupt]. *)
Definition is_Exception (e : exn) : bool :=
  match e with ProviderError KeyboardInterrupt _ => false | _ => true end.

Inductive result (A : Type) : Type :=
| Ok (a : A)
| Raise (e : exn).
Arguments Ok {A} a.
Arguments Raise {A} e.

Definition bind {A B} (r : result A) (k : A -> result B) : result B :=
  match r with Ok a => k a | Raise e => Raise e end.

Notation "x <- r ;; k" := (bind r (fun x => k))
  (at level 61, r at next level, right associativity).

Definition is_ok {A} (r : result A) : bool :=
  match r with Ok _ => true | Raise _ => false end.

(* ------------------------------------------------------------------ *)
(** ** Python text: [str(int)], [str] as UTF-8, [repr(str)], [str(float)] *)

Local Open Scope Z_scope.

(** Decimal digits of a non-negative integer; [fuel] bounds the digits. *)
Fixpoint digits_of (fuel : nat) (n : Z) : string :=
  match fuel with
  | O => ""
  | S f =>
      let q := (n / 10)%Z in
      (if (q =? 0)%Z then "" else digits_of f q) ++
      String (ascii_of_nat (48 + Z.to_nat (n mod 10))) ""
  end.

(** [str(z)] for an int. *)
Definition z_to_string (z : Z) : string :=
  let fuel := S (Z.to_nat (Z.log2 (Z.abs z))) in
  if (z <? 0)%Z then "-" ++ digits_of fuel (- z) else digits_of fuel z.

(** The code points [s] whose [s], ..., [s + 9] are the decimal digits 0-9
    of Unicode 14.0 (Python 3.11's [unicodedata.decimal]). *)
Definition decimal_digit_starts : list Z :=
  [48; 1632; 1776; 1984; 2406; 2534; 2662; 2790; 2918; 3046;
   3174; 3302; 3430; 3558; 3664; 3792; 3872; 4160; 4240; 6112;
   6160; 6470; 6608; 6784; 6800; 6992; 7088; 7232; 7248; 42528;
   43216; 43264; 43472; 43504; 43600; 44016; 65296; 66720; 68912; 69734;
   69872; 69942; 70096; 70384; 70736; 70864; 71248; 71360; 71472; 71904;
   72016; 72784; 73040; 73120; 92768; 92864; 93008; 120782; 120792; 120802;
   120812; 120822; 123200; 123632; 125264; 130032].

(** The ranges of non-ASCII code points that [str.isprintable] rejects
    (Python 3.11, Unicode 14.0). *)
Definition nonprintable_ranges : list (Z * Z) :=
  [(128, 160); (173, 173); (888, 889); (896, 899); (907, 907); (909, 909);
   (930, 930); (1328, 1328); (1367, 1368); (1419, 1420); (1424, 1424); (1480, 1487);
   (1515, 1518); (1525, 1541); (1564, 1564); (1757, 1757); (1806, 1807); (1867, 1868);
   (1970, 1983); (2043, 2044); (2094, 2095); (2111, 2111); (2140, 2141); (2143, 2143);
   (2155, 2159); (2191, 2199); (2274, 2274); (2436, 2436); (2445, 2446); (2449, 2450);
   (2473, 2473); (2481, 2481); (2483, 2485); (2490, 2491); (2501, 2502); (2505, 2506);
   (2511, 2518); (2520, 2523); (2526, 2526); (2532, 2533); (2559, 2560); (2564, 2564);
   (2571, 2574); (2577, 2578); (2601, 2601); (2609, 2609); (2612, 2612); (2615, 2615);
   (2618, 2619); (2621, 2621); (2627, 2630); (2633, 2634); (2638, 2640); (2642, 2648);
   (2653, 2653); (2655, 2661); (2679, 2688); (2692, 2692); (2702, 2702); (2706, 2706);
   (2729, 2729); (2737, 2737); (2740, 2740); (2746, 2747); (2758, 2758); (2762, 2762);
   (2766, 2767); (2769, 2783); (2788, 2789); (2802, 2808); (2816, 2816); (2820, 2820);
   (2829, 2830); (2833, 2834); (2857, 2857); (2865, 2865); (2868, 2868); (2874, 2875);
   (2885, 2886); (2889, 2890); (2894, 2900); (2904, 2907); (2910, 2910); (2916, 2917);
   (2936, 2945); (2948, 2948); (2955, 2957); (2961, 2961); (2966, 2968); (2971, 2971);
   (2973, 2973); (2976, 2978); (2981, 2983); (2987, 2989); (3002, 3005); (3011, 3013);
   (3017, 3017); (3022, 3023); (3025, 3030); (3032, 3045); (3067, 3071); (3085, 3085);
   (3089, 3089); (3113, 3113); (3130, 3131); (3141, 3141); (3145, 3145); (3150, 3156);
   (3159, 3159); (3163, 3164); (3166, 3167); (3172, 3173); (3184, 3190); (3213, 3213);
   (3217, 3217); (3241, 3241); (3252, 3252); (3258, 3259); (3269, 3269); (3273, 3273);
   (3278, 3284); (3287, 3292); (3295, 3295); (3300, 3301); (3312, 3312); (3315, 3327);
   (3341, 3341); (3345, 3345); (3397, 3397); (3401, 3401); (3408, 3411); (3428, 3429);
   (3456, 3456); (3460, 3460); (3479, 3481); (3506, 3506); (3516, 3516); (3518, 3519);
   (3527, 3529); (3531, 3534); (3541, 3541); (3543, 3543); (3552, 3557); (3568, 3569);
   (3573, 3584); (3643, 3646); (3676, 3712); (3715, 3715); (3717, 3717); (3723, 3723);
   (3748, 3748); (3750, 3750); (3774, 3775); (3781, 3781); (3783, 3783); (3790, 3791);
   (3802, 3803); (3808, 3839); (3912, 3912); (3949, 3952); (3992, 3992); (4029, 4029);
   (4045, 4045); (4059, 4095); (4294, 4294); (4296, 4300); (4302, 4303); (4681, 4681);
   (4686, 4687); (4695, 4695); (4697, 4697); (4702, 4703); (4745, 4745); (4750, 4751);
   (4785, 4785); (4790, 4791); (4799, 4799); (4801, 4801); (4806, 4807); (4823, 4823);
   (4881, 4881); (4886, 4887); (4955, 4956); (4989, 4991); (5018, 5023); (5110, 5111);
   (5118, 5119); (5760, 5760); (5789, 5791); (5881, 5887); (5910, 5918); (5943, 5951);
   (5972, 5983); (5997, 5997); (6001, 6001); (6004, 6015); (6110, 6111); (6122, 6127);
   (6138, 6143); (6158, 6158); (6170, 6175); (6265, 6271); (6315, 6319); (6390, 6399);
   (6431, 6431); (6444, 6447); (6460, 6463); (6465, 6467); (6510, 6511); (6517, 6527);
   (6572, 6575); (6602, 6607); (6619, 6621); (6684, 6685); (6751, 6751); (6781, 6782);
   (6794, 6799); (6810, 6815); (6830, 6831); (6863, 6911); (6989, 6991); (7039, 7039);
   (7156, 7163); (7224, 7226); (7242, 7244); (7305, 7311); (7355, 7356); (7368, 7375);
   (7419, 7423); (7958, 7959); (7966, 7967); (8006, 8007); (8014, 8015); (8024, 8024);
   (8026, 8026); (8028, 8028); (8030, 8030); (8062, 8063); (8117, 8117); (8133, 8133);
   (8148, 8149); (8156, 8156); (8176, 8177); (8181, 8181); (8191, 8207); (8232, 8239);
   (8287, 8303); (8306, 8307); (8335, 8335); (8349, 8351); (8385, 8399); (8433, 8447);
   (8588, 8591); (9255, 9279); (9291, 9311); (11124, 11125); (11158, 11158); (11508, 11512);
   (11558, 11558); (11560, 11564); (11566, 11567); (11624, 11630); (11633, 11646); (11671, 11679);
   (11687, 11687); (11695, 11695); (11703, 11703); (11711, 11711); (11719, 11719); (11727, 11727);
   (11735, 11735); (11743, 11743); (11870, 11903); (11930, 11930); (12020, 12031); (12246, 12271);
   (12284, 12288); (12352, 12352); (12439, 12440); (12544, 12548); (12592, 12592); (12687, 12687);
   (12772, 12783); (12831, 12831); (42125, 42127); (42183, 42191); (42540, 42559); (42744, 42751);
   (42955, 42959); (42962, 42962); (42964, 42964); (42970, 42993); (43053, 43055); (43066, 43071);
   (43128, 43135); (43206, 43213); (43226, 43231); (43348, 43358); (43389, 43391); (43470, 43470);
   (43482, 43485); (43519, 43519); (43575, 43583); (43598, 43599); (43610, 43611); (43715, 43738);
   (43767, 43776); (43783, 43784); (43791, 43792); (43799, 43807); (43815, 43815); (43823, 43823);
   (43884, 43887); (44014, 44015); (44026, 44031); (55204, 55215); (55239, 55242); (55292, 63743);
   (64110, 64111); (64218, 64255); (64263, 64274); (64280, 64284); (64311, 64311); (64317, 64317);
   (64319, 64319); (64322, 64322); (64325, 64325); (64451, 64466); (64912, 64913); (64968, 64974);
   (64976, 65007); (65050, 65055); (65107, 65107); (65127, 65127); (65132, 65135); (65141, 65141);
   (65277, 65280); (65471, 65473); (65480, 65481); (65488, 65489); (65496, 65497); (65501, 65503);
   (65511, 65511); (65519, 65531); (65534, 65535); (65548, 65548); (65575, 65575); (65595, 65595);
   (65598, 65598); (65614, 65615); (65630, 65663); (65787, 65791); (65795, 65798); (65844, 65846);
   (65935, 65935); (65949, 65951); (65953, 65999); (66046, 66175); (66205, 66207); (66257, 66271);
   (66300, 66303); (66340, 66348); (66379, 66383); (66427, 66431); (66462, 66462); (66500, 66503);
   (66518, 66559); (66718, 66719); (66730, 66735); (66772, 66775); (66812, 66815); (66856, 66863);
   (66916, 66926); (66939, 66939); (66955, 66955); (66963, 66963); (66966, 66966); (66978, 66978);
   (66994, 66994); (67002, 67002); (67005, 67071); (67383, 67391); (67414, 67423); (67432, 67455);
   (67462, 67462); (67505, 67505); (67515, 67583); (67590, 67591); (67593, 67593); (67638, 67638);
   (67641, 67643); (67645, 67646); (67670, 67670); (67743, 67750); (67760, 67807); (67827, 67827);
   (67830, 67834); (67868, 67870); (67898, 67902); (67904, 67967); (68024, 68027); (68048, 68049);
   (68100, 68100); (68103, 68107); (68116, 68116); (68120, 68120); (68150, 68151); (68155, 68158);
   (68169, 68175); (68185, 68191); (68256, 68287); (68327, 68330); (68343, 68351); (68406, 68408);
   (68438, 68439); (68467, 68471); (68498, 68504); (68509, 68520); (68528, 68607); (68681, 68735);
   (68787, 68799); (68851, 68857); (68904, 68911); (68922, 69215); (69247, 69247); (69290, 69290);
   (69294, 69295); (69298, 69375); (69416, 69423); (69466, 69487); (69514, 69551); (69580, 69599);
   (69623, 69631); (69710, 69713); (69750, 69758); (69821, 69821); (69827, 69839); (69865, 69871);
   (69882, 69887); (69941, 69941); (69960, 69967); (70007, 70015); (70112, 70112); (70133, 70143);
   (70162, 70162); (70207, 70271); (70279, 70279); (70281, 70281); (70286, 70286); (70302, 70302);
   (70314, 70319); (70379, 70383); (70394, 70399); (70404, 70404); (70413, 70414); (70417, 70418);
   (70441, 70441); (70449, 70449); (70452, 70452); (70458, 70458); (70469, 70470); (70473, 70474);
   (70478, 70479); (70481, 70486); (70488, 70492); (70500, 70501); (70509, 70511); (70517, 70655);
   (70748, 70748); (70754, 70783); (70856, 70863); (70874, 71039); (71094, 71095); (71134, 71167);
   (71237, 71247); (71258, 71263); (71277, 71295); (71354, 71359); (71370, 71423); (71451, 71452);
   (71468, 71471); (71495, 71679); (71740, 71839); (71923, 71934); (71943, 71944); (71946, 71947);
   (71956, 71956); (71959, 71959); (71990, 71990); (71993, 71994); (72007, 72015); (72026, 72095);
   (72104, 72105); (72152, 72153); (72165, 72191); (72264, 72271); (72355, 72367); (72441, 72703);
   (72713, 72713); (72759, 72759); (72774, 72783); (72813, 72815); (72848, 72849); (72872, 72872);
   (72887, 72959); (72967, 72967); (72970, 72970); (73015, 73017); (73019, 73019); (73022, 73022);
   (73032, 73039); (73050, 73055); (73062, 73062); (73065, 73065); (73103, 73103); (73106, 73106);
   (73113, 73119); (73130, 73439); (73465, 73647); (73649, 73663); (73714, 73726); (74650, 74751);
   (74863, 74863); (74869, 74879); (75076, 77711); (77811, 77823); (78895, 82943); (83527, 92159);
   (92729, 92735); (92767, 92767); (92778, 92781); (92863, 92863); (92874, 92879); (92910, 92911);
   (92918, 92927); (92998, 93007); (93018, 93018); (93026, 93026); (93048, 93052); (93072, 93759);
   (93851, 93951); (94027, 94030); (94088, 94094); (94112, 94175); (94181, 94191); (94194, 94207);
   (100344, 100351); (101590, 101631); (101641, 110575); (110580, 110580); (110588, 110588); (110591, 110591);
   (110883, 110927); (110931, 110947); (110952, 110959); (111356, 113663); (113771, 113775); (113789, 113791);
   (113801, 113807); (113818, 113819); (113824, 118527); (118574, 118575); (118599, 118607); (118724, 118783);
   (119030, 119039); (119079, 119080); (119155, 119162); (119275, 119295); (119366, 119519); (119540, 119551);
   (119639, 119647); (119673, 119807); (119893, 119893); (119965, 119965); (119968, 119969); (119971, 119972);
   (119975, 119976); (119981, 119981); (119994, 119994); (119996, 119996); (120004, 120004); (120070, 120070);
   (120075, 120076); (120085, 120085); (120093, 120093); (120122, 120122); (120127, 120127); (120133, 120133);
   (120135, 120137); (120145, 120145); (120486, 120487); (120780, 120781); (121484, 121498); (121504, 121504);
   (121520, 122623); (122655, 122879); (122887, 122887); (122905, 122906); (122914, 122914); (122917, 122917);
   (122923, 123135); (123181, 123183); (123198, 123199); (123210, 123213); (123216, 123535); (123567, 123583);
   (123642, 123646); (123648, 124895); (124903, 124903); (124908, 124908); (124911, 124911); (124927, 124927);
   (125125, 125126); (125143, 125183); (125260, 125263); (125274, 125277); (125280, 126064); (126133, 126208);
   (126270, 126463); (126468, 126468); (126496, 126496); (126499, 126499); (126501, 126502); (126504, 126504);
   (126515, 126515); (126520, 126520); (126522, 126522); (126524, 126529); (126531, 126534); (126536, 126536);
   (126538, 126538); (126540, 126540); (126544, 126544); (126547, 126547); (126549, 126550); (126552, 126552);
   (126554, 126554); (126556, 126556); (126558, 126558); (126560, 126560); (126563, 126563); (126565, 126566);
   (126571, 126571); (126579, 126579); (126584, 126584); (126589, 126589); (126591, 126591); (126602, 126602);
   (126620, 126624); (126628, 126628); (126634, 126634); (126652, 126703); (126706, 126975); (127020, 127023);
   (127124, 127135); (127151, 127152); (127168, 127168); (127184, 127184); (127222, 127231); (127406, 127461);
   (127491, 127503); (127548, 127551); (127561, 127567); (127570, 127583); (127590, 127743); (128728, 128732);
   (128749, 128751); (128765, 128767); (128884, 128895); (128985, 128991); (129004, 129007); (129009, 129023);
   (129036, 129039); (129096, 129103); (129114, 129119); (129160, 129167); (129198, 129199); (129202, 129279);
   (129620, 129631); (129646, 129647); (129653, 129655); (129661, 129663); (129671, 129679); (129709, 129711);
   (129723, 129727); (129734, 129743); (129754, 129759); (129768, 129775); (129783, 129791); (129939, 129939);
   (129995, 130031); (130042, 131071); (173792, 173823); (177977, 177983); (178206, 178207); (183970, 183983);
   (191457, 194559); (195102, 196607); (201547, 917759); (918000, 1114111)].

(** The bytes of a string, and back. *)
Definition bytes_of_string (s : string) : list Z :=
  map (fun c => Z.of_nat (nat_of_ascii c)) (list_ascii_of_string s).

Definition string_of_bytes (bs : list Z) : string :=
  string_of_list_ascii (map (fun b => ascii_of_nat (Z.to_nat b)) bs).

Definition utf8_cont (b : Z) : bool := (128 <=? b) && (b <? 192).

(** [bytes.decode("utf-8", "surrogateescape")]: a byte that does not
    start a well-formed sequence becomes the code point [0xDC00 + b]. *)
Fixpoint utf8_decode (bs : list Z) : list Z :=
  match bs with
  | [] => []
  | b0 :: rest =>
      let esc := 56320 + b0 in
      if b0 <? 128 then b0 :: utf8_decode rest
      else if (194 <=? b0) && (b0 <=? 223) then
        match rest with
        | b1 :: rest1 =>
            if utf8_cont b1 then (64 * (b0 - 192) + (b1 - 128)) :: utf8_decode rest1
            else esc :: utf8_decode rest
        | [] => [esc]
        end
      else if (224 <=? b0) && (b0 <=? 239) then
        match rest with
        | b1 :: b2 :: rest2 =>
            let lo1 := if b0 =? 224 then 160 else 128 in
            let hi1 := if b0 =? 237 then 159 else 191 in
            if (lo1 <=? b1) && (b1 <=? hi1) && utf8_cont b2 then
              (4096 * (b0 - 224) + 64 * (b1 - 128) + (b2 - 128)) :: utf8_decode rest2
            else esc :: utf8_decode rest
        | _ => esc :: utf8_decode rest
        end
      else if (240 <=? b0) && (b0 <=? 244) then
        match rest with
        | b1 :: b2 :: b3 :: rest3 =>
            let lo1 := if b0 =? 240 then 144 else 128 in
            let hi1 := if b0 =? 244 then 143 else 191 in
            if (lo1 <=? b1) && (b1 <=? hi1) && utf8_cont b2 && utf8_cont b3 then
              (262144 * (b0 - 240) + 4096 * (b1 - 128) + 64 * (b2 - 128) + (b3 - 128))
                :: utf8_decode rest3
            else esc :: utf8_decode rest
        | _ => esc :: utf8_decode rest
        end
      else esc :: utf8_decode rest
  end.

(** [str.encode("utf-8")] of code points that are not surrogates. *)
Definition utf8_encode_char (c : Z) : list Z :=
  if c <? 128 then [c]
  else if c <? 2048 then [192 + c / 64; 128 + c mod 64]
  else if c <? 65536 then [224 + c / 4096; 128 + (c / 64) mod 64; 128 + c mod 64]
  else [240 + c / 262144; 128 + (c / 4096) mod 64; 128 + (c / 64) mod 64; 128 + c mod 64].

Definition utf8_encode (cps : list Z) : list Z := flat_map utf8_encode_char cps.

Definition is_printable (c : Z) : bool :=
  negb (existsb (fun r => (fst r <=? c) && (c <=? snd r)) nonprintable_ranges).

Definition hex_digit (n : Z) : Z := if n <? 10 then 48 + n else 87 + n.

Fixpoint hex_pad (k : nat) (n : Z) : list Z :=
  match k with O => [] | S k' => hex_pad k' (n / 16) ++ [hex_digit (n mod 16)] end.

(** One character of [repr(s)] quoted with [q]. *)
Definition repr_char (q c : Z) : list Z :=
  if (c =? q) || (c =? 92) then [92; c]
  else if c =? 9 then [92; 116]
  else if c =? 10 then [92; 110]
  else if c =? 13 then [92; 114]
  else if (c <? 32) || (c =? 127) then 92 :: 120 :: hex_pad 2 c
  else if c <? 127 then [c]
  else if is_printable c then [c]
  else if c <? 256 then 92 :: 120 :: hex_pad 2 c
  else if c <? 65536 then 92 :: 117 :: hex_pad 4 c
  else 92 :: 85 :: hex_pad 8 c.

(** [repr(s)] of a [str], as code points: double quotes when the string
    has a single quote and no double quote, single quotes otherwise. *)
Definition repr_cps (cps : list Z) : list Z :=
  let q := if existsb (Z.eqb 39) cps && negb (existsb (Z.eqb 34) cps) then 34 else 39 in
  q :: flat_map (repr_char q) cps ++ [q].

(** [repr(s)] for a string given by its UTF-8 bytes. *)
Definition str_repr (s : string) : string :=
  string_of_bytes (utf8_encode (repr_cps (utf8_decode (bytes_of_string s)))).

(** [str(e)] for the exceptions of this model, as [f"{e}"] renders it;
    the message argument of the other constructors is [str(e)].  The
    [str] of tenacity's [RetryError] shows the address of a [Future],
    which the model does not have: only the class name is kept. *)
Definition exn_str (e : exn) : string :=
  match e with
  | KeyError k => str_repr k
  | IndexError => "list index out of range"
  | TypeError m | ValueError m | RuntimeError m | ProviderError _ m
  | RequestsError _ m | ContextRetrievalError m | RepositoryError m => m
  | RetryError _ => "RetryError"
  | UnboundLocalError n =>
      "cannot access local variable '" ++ n ++ "' where it is not associated with a value"
  end.

(** [repr(x)] (and [str(x)], [f"{x}"]) of a float: the shortest decimal
    string that reads back as [x] (David Gay's mode 0, the nearest one
    among the shortest), in fixed notation when the decimal point
    position [decpt] satisfies [-4 < decpt <= 16], with ["e+XX"] /
    ["e-XX"] otherwise.  [Prim2SF x] is [x] as a sign, an integer
    mantissa [m] and an exponent [e] ([x = m * 2 ^ e]). *)

(** [d * 10 ^ p] compared with [k * 2 ^ f]. *)
Definition cmp_dec_bin (d p k f : Z) : comparison :=
  Z.compare (Z.shiftl (d * 10 ^ Z.max p 0) (Z.max (- f) 0))
            (Z.shiftl k (Z.max f 0) * 10 ^ Z.max (- p) 0).

(** [m * 2 ^ e >= 10 ^ j] *)
Definition ge_pow10 (m e j : Z) : bool :=
  match cmp_dec_bin 1 j m e with Gt => false | _ => true end.

Fixpoint decpt_adjust (fuel : nat) (m e E : Z) : Z :=
  match fuel with
  | O => E
  | S f =>
      if ge_pow10 m e E then decpt_adjust f m e (E + 1)
      else if negb (ge_pow10 m e (E - 1)) then decpt_adjust f m e (E - 1)
      else E
  end.

(** The [E] with [10 ^ (E - 1) <= m * 2 ^ e < 10 ^ E]. *)
Definition decimal_point (m e : Z) : Z :=
  decpt_adjust 8 m e (((Z.log2 m + e) * 30103) / 100000 + 1).

(** [d * 10 ^ p] rounds to [m * 2 ^ e] (round-half-even). *)
Definition rounds_to (m e d p : Z) : bool :=
  let lowgap := if (m =? 2 ^ 52) && (-1074 <? e) then 1 else 2 in
  let even := Z.even m in
  let lo := cmp_dec_bin d p (4 * m - lowgap) (e - 2) in
  let hi := cmp_dec_bin d p (4 * m + 2) (e - 2) in
  match lo with Gt => true | Eq => even | Lt => false end &&
  match hi with Lt => true | Eq => even | Gt => false end.

Fixpoint shortest_from (fuel : nat) (m e E : Z) (ndig : Z) : Z * Z :=
  let p := E - ndig in
  let num := Z.shiftl m (Z.max e 0) * 10 ^ Z.max (- p) 0 in
  let den := Z.shiftl (10 ^ Z.max p 0) (Z.max (- e) 0) in
  let dlo := num / den in
  let ok_lo := rounds_to m e dlo p in
  let ok_hi := rounds_to m e (dlo + 1) p in
  match fuel with
  | O => (dlo, p)
  | S f =>
      if ok_lo && ok_hi then
        match cmp_dec_bin (2 * dlo + 1) p (8 * m) (e - 2) with
        | Gt => (dlo, p)
        | Lt => (dlo + 1, p)
        | Eq => if Z.even dlo then (dlo, p) else (dlo + 1, p)
        end
      else if ok_lo then (dlo, p)
      else if ok_hi then (dlo + 1, p)
      else shortest_from f m e E (ndig + 1)
  end.

Fixpoint strip_zeros (fuel : nat) (d p : Z) : Z * Z :=
  match fuel with
  | O => (d, p)
  | S f => if (d mod 10 =? 0) && (0 <? d) then strip_zeros f (d / 10) (p + 1) else (d, p)
  end.

Fixpoint zeros (n : nat) : string :=
  match n with O => "" | S k => "0" ++ zeros k end.

Definition format_r (digits : string) (decpt : Z) : string :=
  let L := Z.of_nat (String.length digits) in
  if (decpt <=? -4) || (16 <? decpt) then
    let x := decpt - 1 in
    String.substring 0 1 digits ++
    (if 1 <? L then "." ++ String.substring 1 (String.length digits - 1) digits else "") ++
    "e" ++ (if x <? 0 then "-" else "+") ++
    (if Z.abs x <? 10 then "0" else "") ++ z_to_string (Z.abs x)
  else if decpt <=? 0 then "0." ++ zeros (Z.to_nat (- decpt)) ++ digits
  else if decpt <? L then
    String.substring 0 (Z.to_nat decpt) digits ++ "." ++
    String.substring (Z.to_nat decpt) (Z.to_nat (L - decpt)) digits
  else digits ++ zeros (Z.to_nat (decpt - L)) ++ ".0".

Definition float_repr (x : PrimFloat.float) : string :=
  match Prim2SF x with
  | S754_nan => "nan"
  | S754_infinity s => if s then "-inf" else "inf"
  | S754_zero s => if s then "-0.0" else "0.0"
  | S754_finite s m e =>
      let m := Zpos m in
      let E := decimal_point m e in
      let '(d, p) := shortest_from 17 m e E 1 in
      let '(d, p) := strip_zeros 20 d p in
      let ds := z_to_string d in
      (if s then "-" else "") ++ format_r ds (p + Z.of_nat (String.length ds))
  end.

Local Close Scope Z_scope.

(* ------------------------------------------------------------------ *)
(** ** [LitellmModel.query], lines 72-83: projecting the messages *)

Definition copy_if_present (k : string) (msg fm : dict) : dict :=
  match dict_lookup k msg with
  | Some v => dict_set k v fm
  | None => fm
  end.

(** One iteration of the loop: [msg["role"]] raises [KeyError] when the
    role is absent. *)
Definition filter_message (msg : dict) : result dict :=
  match dict_lookup "role" msg with
  | None => Raise (KeyError "role")
  | Some role =>
      let fm := [("role", role); ("content", dict_get "content" msg (PStr ""))] in
      let fm := copy_if_present "tool_calls" msg fm in
      let fm := copy_if_present "tool_call_id" msg fm in
      Ok (copy_if_present "name" msg fm)
  end.

Fixpoint filter_messages (msgs : list dict) : result (list dict) :=
  match msgs with
  | [] => Ok []
  | m :: ms =>
      fm <- filter_message m ;;
      fms <- filter_messages ms ;;
      Ok (fm :: fms)
  end.

(* ------------------------------------------------------------------ *)
(** ** The provider response and the model client's state *)

(** [litellm] response objects, as far as [query] reads them. *)
Record ToolCallObj := {
  tc_id : string;
  tc_type : string;
  tc_function_name : string;
  tc_function_arguments : string
}.

(** [response.choices[i].message]; [m_tool_calls = None] covers both a
    missing attribute and a [None] value. *)
Record ChoiceMessage := {
  m_content : option string;
  m_tool_calls : option (list ToolCallObj)
}.

Record ModelResponse := {
  choices : list ChoiceMessage;
  model_dump : pyval
}.

(** [LitellmModelConfig]; [cost_tracking] is a plain string read from the
    environment, compared against ["ignore_errors"]. *)
Record LitellmModelConfig := {
  model_name : string;
  model_kwargs : dict;
  set_cache_control : option string;
  cost_tracking : string
}.

(** The mutable fields of a [LitellmModel] instance. *)
Record ModelState := {
  n_calls : nat;
  cost : PrimFloat.float
}.

(** [LitellmModel.__init__]: [self.cost = 0.0; self.n_calls = 0]. *)
Definition init_state : ModelState := {| n_calls := 0; cost := 0%float |}.

(** The external provider: [litellm.completion], seen per attempt number
    (1, 2, ...) so that each retry may get a different answer, and
    [litellm.cost_calculator.completion_cost]. *)
Record Provider := {
  completion : nat -> string -> list dict -> dict -> result ModelResponse;
  completion_cost : ModelResponse -> string -> result PrimFloat.float
}.

(** Modelled from the spec: [GLOBAL_MODEL_STATS.add] of
    [minisweagent.models] (not under src/).  The spec describes it as "a
    single shared accumulator of total cost across all client instances
    in the process" to which "any client instance may add". *)
Definition global_stats_add (global c : PrimFloat.float) : PrimFloat.float := (global + c)%float.

(* ------------------------------------------------------------------ *)
(** ** tenacity's [@retry] around [LitellmModel._query] (lines 43-58) *)

(** [retry_if_not_exception_type((UnsupportedParamsError, ...,
    KeyboardInterrupt))]: the exception types that are not retried. *)
Definition non_retryable (e : exn) : bool :=
  match e with
  | ProviderError UnsupportedParamsError _
  | ProviderError NotFoundError _
  | ProviderError PermissionDeniedError _
  | ProviderError ContextWindowExceededError _
  | ProviderError APIError _
  | ProviderError AuthenticationError _
  | ProviderError KeyboardInterrupt _ => true
  | _ => false
  end.

Definition retryable (e : exn) : bool := negb (non_retryable e).

(** [wait_exponential(multiplier=1, min=4, max=60)] before the retry that
    follows attempt [n]: [max(4, min(1 * 2 ** (n - 1), 60))]. *)
Definition wait_exponential (n : nat) : Z :=
  Z.max 4 (Z.min (2 ^ (Z.of_nat n - 1)) 60).

(** [int(os.getenv("MSWEA_MODEL_RETRY_STOP_AFTER_ATTEMPT", "10"))] when
    the variable is unset. *)
Definition default_stop_after_attempt : nat := 10.

(** One run of the decorated function: its outcome, the number of
    attempts made and the waits slept between them. *)
Record RetryRun (A : Type) := {
  rr_outcome : result A;
  rr_attempts : nat;
  rr_sleeps : list Z
}.
Arguments rr_outcome {A} r.
Arguments rr_attempts {A} r.
Arguments rr_sleeps {A} r.

(** tenacity's loop from attempt [n] on.  A result is returned at once;
    an exception the retry predicate rejects is re-raised as it is; a
    retryable one stops the loop when [stop_after_attempt] holds
    ([n >= stop]) with a [RetryError] wrapping it, and otherwise sleeps
    and tries again.  [fuel] only bounds the recursion; it is never
    exhausted when started at [stop]. *)
Fixpoint retry_from {A} (fuel stop : nat) (f : nat -> result A) (n : nat)
  : RetryRun A :=
  match f n with
  | Ok a => {| rr_outcome := Ok a; rr_attempts := n; rr_sleeps := [] |}
  | Raise e =>
      if non_retryable e then
        {| rr_outcome := Raise e; rr_attempts := n; rr_sleeps := [] |}
      else if Nat.leb stop n then
        {| rr_outcome := Raise (RetryError e); rr_attempts := n; rr_sleeps := [] |}
      else
        match fuel with
        | O => {| rr_outcome := Raise (RetryError e); rr_attempts := n; rr_sleeps := [] |}
        | S fuel' =>
            let r := retry_from fuel' stop f (S n) in
            {| rr_outcome := rr_outcome r; rr_attempts := rr_attempts r;
               rr_sleeps := wait_exponential n :: rr_sleeps r |}
        end
  end.

Definition retry {A} (stop : nat) (f : nat -> result A) : RetryRun A :=
  retry_from stop stop f 1.

Definition auth_hint : string :=
  " You can permanently set your API key with `mini-extra config set KEY VALUE`.".

(** Lines 64-66: [e.message += ...; raise e] for an
    [AuthenticationError]; other exceptions pass unchanged. *)
Definition add_auth_hint (e : exn) : exn :=
  match e with
  | ProviderError AuthenticationError m => ProviderError AuthenticationError (m ++ auth_hint)
  | e => e
  end.

(** The body of [_query] at attempt [n]: call the provider with
    [model_kwargs | kwargs]. *)
Definition _query_body (p : Provider) (cfg : LitellmModelConfig)
    (messages : list dict) (kwargs : dict) (n : nat) : result ModelResponse :=
  match completion p n (model_name cfg) messages (dict_merge (model_kwargs cfg) kwargs) with
  | Ok response => Ok response
  | Raise e => Raise (add_auth_hint e)
  end.

(** [LitellmModel._query] with its decorator. *)
Definition _query (stop : nat) (p : Provider) (cfg : LitellmModelConfig)
    (messages : list dict) (kwargs : dict) : RetryRun ModelResponse :=
  retry stop (_query_body p cfg messages kwargs).

(* ------------------------------------------------------------------ *)
(** ** [LitellmModel.query] (lines 68-130) *)

(** The message of lines 93-100; [e] is [str(e)] of the exception caught. *)
Definition cost_error_message (cfg : LitellmModelConfig) (e : string) : string :=
  "Error calculating cost for model " ++ model_name cfg ++ ": " ++ e ++
  ", perhaps it's not registered? " ++
  "You can ignore this issue from your config file with cost_tracking: 'ignore_errors' or " ++
  "globally with export MSWEA_COST_TRACKING='ignore_errors'. " ++
  "Alternatively check the 'Cost tracking' section in the documentation at " ++
  "https://klieret.short.gy/mini-local-models. " ++
  " Still stuck? Please open a github issue at https://github.com/SWE-agent/mini-swe-agent/issues/new/choose!".

(** [f"Cost must be > 0.0, got {cost}"] (line 89). *)
Definition cost_value_error (c : PrimFloat.float) : exn :=
  ValueError ("Cost must be > 0.0, got " ++ float_repr c).

(** Lines 86-102.  The cost is [completion_cost(...)] unless [cost <=
    0.0] holds, which raises [ValueError] inside the [try]; a NaN cost
    fails that comparison and is kept.  Any [Exception] sets the cost to
    [0.0] and, unless the mode is ["ignore_errors"], raises
    [RuntimeError] with [str(e)] in its message.  [KeyboardInterrupt] is
    not an [Exception] and escapes the [except]. *)
Definition cost_check (p : Provider) (cfg : LitellmModelConfig)
    (response : ModelResponse) : result PrimFloat.float :=
  let attempt :=
    match completion_cost p response (model_name cfg) with
    | Ok c => if (c <=? 0)%float then Raise (cost_value_error c) else Ok c
    | Raise e => Raise e
    end in
  match attempt with
  | Ok c => Ok c
  | Raise e =>
      if is_Exception e then
        if String.eqb (cost_tracking cfg) "ignore_errors" then Ok 0%float
        else Raise (RuntimeError (cost_error_message cfg (exn_str e)))
      else Raise e
  end.

Definition tool_call_to_pyval (tc : ToolCallObj) : pyval :=
  PDict [("id", PStr (tc_id tc)); ("type", PStr (tc_type tc));
         ("function", PDict [("name", PStr (tc_function_name tc));
                             ("arguments", PStr (tc_function_arguments tc))])].

(** Lines 107-130: [response.choices[0]] raises [IndexError] on an empty
    [choices]; [message.content or ""]; tool calls are added only when
    the list is non-empty. *)
Definition normalize_response (response : ModelResponse) : result pyval :=
  match choices response with
  | [] => Raise IndexError
  | message :: _ =>
      let content := match m_content message with Some s => s | None => "" end in
      let res := [("content", PStr content);
                  ("extra", PDict [("response", model_dump response)])] in
      match m_tool_calls message with
      | Some ((_ :: _) as tcs) =>
          Ok (PDict (dict_set "tool_calls" (PList (map tool_call_to_pyval tcs)) res))
      | _ => Ok (PDict res)
      end
  end.

(** A run of [query]: the value returned or the exception raised, the
    instance state and the process-wide accumulator afterwards, the
    number of provider attempts, the message list sent to the provider
    (if the call got that far) and the value of the local [cost] when the
    counters are updated (0 otherwise). *)
Record QueryRun := {
  q_outcome : result pyval;
  q_state : ModelState;
  q_global : PrimFloat.float;
  q_attempts : nat;
  q_payload : option (list dict);
  q_cost : PrimFloat.float
}.

(** Lines 69-70: the cache-control step, applied when the mode is a
    non-empty string.  [set_cache_control] itself (in
    [minisweagent.models.utils.cache_control]) is a parameter [scc]. *)
Definition prepare_messages (scc : list dict -> string -> list dict)
    (cfg : LitellmModelConfig) (messages : list dict) : list dict :=
  match set_cache_control cfg with
  | Some mode => if String.eqb mode "" then messages else scc messages mode
  | None => messages
  end.

Definition query (stop : nat) (scc : list dict -> string -> list dict)
    (p : Provider) (cfg : LitellmModelConfig) (st : ModelState) (global : PrimFloat.float)
    (messages : list dict) (kwargs : dict) : QueryRun :=
  let messages := prepare_messages scc cfg messages in
  match filter_messages messages with
  | Raise e =>
      {| q_outcome := Raise e; q_state := st; q_global := global;
         q_attempts := 0; q_payload := None; q_cost := 0%float |}
  | Ok filtered_messages =>
      let r := _query stop p cfg filtered_messages kwargs in
      match rr_outcome r with
      | Raise e =>
          {| q_outcome := Raise e; q_state := st; q_global := global;
             q_attempts := rr_attempts r; q_payload := Some filtered_messages;
             q_cost := 0%float |}
      | Ok response =>
          match cost_check p cfg response with
          | Raise e =>
              {| q_outcome := Raise e; q_state := st; q_global := global;
                 q_attempts := rr_attempts r; q_payload := Some filtered_messages;
                 q_cost := 0%float |}
          | Ok c =>
              (* self.n_calls += 1; self.cost += cost; GLOBAL_MODEL_STATS.add(cost) *)
              let st' := {| n_calls := S (n_calls st); cost := (cost st + c)%float |} in
              {| q_outcome := normalize_response response; q_state := st';
                 q_global := global_stats_add global c;
                 q_attempts := rr_attempts r; q_payload := Some filtered_messages;
                 q_cost := c |}
          end
      end
  end.

(* ------------------------------------------------------------------ *)
(** ** Several calls, several instances *)

(** One call [model.query(messages, **kwargs)], with the provider's
    behaviour during that call. *)
Record Call := {
  call_provider : Provider;
  call_messages : list dict;
  call_kwargs : dict
}.

(** Successive calls on one instance. *)
Fixpoint run_calls (stop : nat) (scc : list dict -> string -> list dict)
    (cfg : LitellmModelConfig) (st : ModelState) (global : PrimFloat.float) (calls : list Call)
    : list QueryRun * ModelState * PrimFloat.float :=
  match calls with
  | [] => ([], st, global)
  | c :: cs =>
      let r := query stop scc (call_provider c) cfg st global (call_messages c) (call_kwargs c) in
      let '(rs, st', global') := run_calls stop scc cfg (q_state r) (q_global r) cs in
      (r :: rs, st', global')
  end.

(** The process: the instances created so far (each with its immutable
    config) and the process-wide accumulator. *)
Record World := {
  instances : list (LitellmModelConfig * ModelState);
  global_cost : PrimFloat.float
}.

Definition empty_world : World := {| instances := []; global_cost := 0%float |}.

Inductive Event :=
| NewModel (cfg : LitellmModelConfig)
| QueryOn (i : nat) (c : Call).

Fixpoint update_nth {A} (i : nat) (x : A) (l : list A) : list A :=
  match l, i with
  | [], _ => []
  | _ :: l', O => x :: l'
  | y :: l', S i' => y :: update_nth i' x l'
  end.

Definition world_step (stop : nat) (scc : list dict -> string -> list dict)
    (w : World) (ev : Event) : World :=
  match ev with
  | NewModel cfg =>
      {| instances := instances w ++ [(cfg, init_state)]; global_cost := global_cost w |}
  | QueryOn i c =>
      match nth_error (instances w) i with
      | None => w
      | Some (cfg, st) =>
          let r := query stop scc (call_provider c) cfg st (global_cost w)
                     (call_messages c) (call_kwargs c) in
          {| instances := update_nth i (cfg, q_state r) (instances w);
             global_cost := q_global r |}
      end
  end.

Definition run_world (stop : nat) (scc : list dict -> string -> list dict)
    (evs : list Event) : World :=
  fold_left (world_step stop scc) evs empty_world.

(** The instances' cumulative costs added up (as floats). *)
Definition sum_instance_costs (l : list (LitellmModelConfig * ModelState)) : PrimFloat.float :=
  fold_right (fun x acc => (cost (snd x) + acc)%float) 0%float l.

(** The cost a step of the process counts, with the index of the
    instance that counts it: a call counts when it increments [n_calls]. *)
Definition counted_entry (stop : nat) (scc : list dict -> string -> list dict)
    (w : World) (ev : Event) : list (nat * PrimFloat.float) :=
  match ev with
  | NewModel _ => []
  | QueryOn i c =>
      match nth_error (instances w) i with
      | None => []
      | Some (cfg, st) =>
          let r := query stop scc (call_provider c) cfg st (global_cost w)
                     (call_messages c) (call_kwargs c) in
          if Nat.eqb (n_calls (q_state r)) (n_calls st) then [] else [(i, q_cost r)]
      end
  end.

(** The costs counted in a run of the process, in the order they were
    added to the accumulator. *)
Fixpoint counted_costs (stop : nat) (scc : list dict -> string -> list dict)
    (w : World) (evs : list Event) : list (nat * PrimFloat.float) :=
  match evs with
  | [] => []
  | ev :: evs' =>
      counted_entry stop scc w ev ++ counted_costs stop scc (world_step stop scc w ev) evs'
  end.

(** The costs counted by instance [i], in order. *)
Definition counted_of (i : nat) (log : list (nat * PrimFloat.float)) : list PrimFloat.float :=
  map snd (filter (fun x => Nat.eqb (fst x) i) log).

(* ------------------------------------------------------------------ *)
(** ** Python helpers used by the CRA clients *)

(** [repr] of a JSON value. *)
Fixpoint py_repr (v : pyval) : string :=
  match v with
  | PNone => "None"
  | PBool true => "True"
  | PBool false => "False"
  | PInt z => z_to_string z
  | PStr s => str_repr s
  | PList l => "[" ++ String.concat ", " (map py_repr l) ++ "]"
  | PDict d =>
      "{" ++ String.concat ", "
               (map (fun kv => match kv with (k, x) => str_repr k ++ ": " ++ py_repr x end) d)
      ++ "}"
  end.

(** [str(v)], as an f-string renders it. *)
Definition py_str (v : pyval) : string :=
  match v with PStr s => s | _ => py_repr v end.

(** [v[k]] with a string key. *)
Definition py_getitem (v : pyval) (k : string) : result pyval :=
  match v with
  | PDict d => match dict_lookup k d with Some x => Ok x | None => Raise (KeyError k) end
  | PList _ => Raise (TypeError "list indices must be integers or slices, not str")
  | PStr _ => Raise (TypeError "string indices must be integers, not 'str'")
  | PNone => Raise (TypeError "'NoneType' object is not subscriptable")
  | PInt _ => Raise (TypeError "'int' object is not subscriptable")
  | PBool _ => Raise (TypeError "'bool' object is not subscriptable")
  end.

(** [k in v] with a string [k]: a key of a dict, an element of a list, a
    substring of a string. *)
Definition py_contains (k : string) (v : pyval) : result bool :=
  match v with
  | PDict d => Ok (dict_in k d)
  | PList l => Ok (existsb (fun x => match x with PStr s => String.eqb s k | _ => false end) l)
  | PStr s => Ok (match String.index 0 k s with Some _ => true | None => false end)
  | PNone => Raise (TypeError "argument of type 'NoneType' is not iterable")
  | PInt _ => Raise (TypeError "argument of type 'int' is not iterable")
  | PBool _ => Raise (TypeError "argument of type 'bool' is not iterable")
  end.

(** [os.environ], first binding wins. *)
Definition environ := list (string * string).

Fixpoint env_get (k : string) (env : environ) : option string :=
  match env with
  | [] => None
  | (k', v) :: env' => if String.eqb k k' then Some v else env_get k env'
  end.

(** [not os.environ.get(k)]: unset or empty. *)
Definition env_missing (v : option string) : bool :=
  match v with None => true | Some s => String.eqb s "" end.

Local Open Scope Z_scope.

(** [Py_UNICODE_ISSPACE] above ASCII. *)
Definition unicode_space (c : Z) : bool :=
  (c =? 133) || (c =? 160) || (c =? 5760) || ((8192 <=? c) && (c <=? 8202)) ||
  (c =? 8232) || (c =? 8233) || (c =? 8239) || (c =? 8287) || (c =? 12288).

Definition decimal_value (c : Z) : option Z :=
  match find (fun s => (s <=? c) && (c <? s + 10)) decimal_digit_starts with
  | Some s => Some (c - s)
  | None => None
  end.

(** [_PyUnicode_TransformDecimalAndSpaceToASCII]: characters below 127
    are kept, other white space becomes a space, other decimal digits
    their ASCII digit, and the first other character becomes ['?'],
    where the result stops. *)
Fixpoint to_decimal_ascii (cps : list Z) : list Z :=
  match cps with
  | [] => []
  | c :: r =>
      if c <? 127 then c :: to_decimal_ascii r
      else if unicode_space c then 32 :: to_decimal_ascii r
      else match decimal_value c with
           | Some v => (48 + v) :: to_decimal_ascii r
           | None => [63]
           end
  end.

(** [Py_ISSPACE] *)
Definition c_space (c : Z) : bool := (c =? 32) || ((9 <=? c) && (c <=? 13)).

Fixpoint skip_c_space (cs : list Z) : list Z :=
  match cs with
  | c :: r => if c_space c then skip_c_space r else cs
  | [] => []
  end.

(** The digit scan of [PyLong_FromString]: digits and single
    underscores; [None] on a second underscore in a row.  It returns the
    value, the number of digits, the last character scanned and the rest. *)
Fixpoint scan_digits (cs : list Z) (prev acc n : Z) : option (Z * Z * Z * list Z) :=
  match cs with
  | c :: r =>
      if (48 <=? c) && (c <=? 57) then scan_digits r c (10 * acc + (c - 48)) (n + 1)
      else if c =? 95 then (if prev =? 95 then None else scan_digits r c acc n)
      else Some (acc, n, prev, cs)
  | [] => Some (acc, n, prev, [])
  end.

Definition int_max_str_digits : Z := 4300.

Definition int_limit_message (n : Z) : string :=
  "Exceeds the limit (4300 digits) for integer string conversion: value has " ++
  z_to_string n ++ " digits; use sys.set_int_max_str_digits() to increase the limit".

(** [int(s)] for a [str] [s] (CPython 3.11, [PyLong_FromUnicodeObject]
    with base 10). *)
Definition py_int (s : string) : result Z :=
  let u := utf8_decode (bytes_of_string s) in
  let invalid := Raise (ValueError ("invalid literal for int() with base 10: " ++
                                    string_of_bytes (utf8_encode (firstn 200 (repr_cps u))))) in
  (* skip white space, then an optional sign ('+' is 43, '-' is 45) *)
  let cs := skip_c_space (to_decimal_ascii u) in
  let '(sign, cs) := match cs with
                     | c :: r => if c =? 43 then (1, r) else if c =? 45 then (-1, r) else (1, cs)
                     | [] => (1, cs)
                     end in
  (* no leading underscore ('_' is 95) *)
  if match cs with c :: _ => c =? 95 | [] => false end then invalid
  else
    match scan_digits cs 0 0 0 with
    | None => invalid
    | Some (v, n, prev, rest) =>
        if prev =? 95 then invalid
        else if int_max_str_digits <? n then Raise (ValueError (int_limit_message n))
        else if n =? 0 then invalid
        else match skip_c_space rest with
             | [] => Ok (sign * v)
             | _ :: _ => invalid
             end
    end.

Local Close Scope Z_scope.

(* ------------------------------------------------------------------ *)
(** ** The HTTP transport ([requests]) *)

(** A [requests.Response]: its status, its text, and what
    [response.json()] returns or raises: requests' [JSONDecodeError]
    (with the decoder's message) when the body is not valid JSON, the
    plain [ValueError] of [int()] for an integer of more than 4300
    digits, [RecursionError] for a body nested too deeply, ... *)
Record HttpResponse := {
  status_code : Z;
  text : string;
  json_body : result pyval
}.

Inductive HttpRequest :=
| HttpPost (url : string) (payload : pyval)
| HttpDelete (url : string) (params : dict).

(** [requests.post] / [requests.delete]: a response or a transport
    exception. *)
Definition Transport := HttpRequest -> result HttpResponse.

(** [Response.raise_for_status()]: [HTTPError] for 400-599. *)
Definition raise_for_status (r : HttpResponse) : result unit :=
  let s := status_code r in
  if ((400 <=? s) && (s <? 500))%Z then
    Raise (RequestsError HTTPError (z_to_string s ++ " Client Error"))
  else if ((500 <=? s) && (s <? 600))%Z then
    Raise (RequestsError HTTPError (z_to_string s ++ " Server Error"))
  else Ok tt.

(** [bool(response)] is [response.ok]: [raise_for_status] did not raise. *)
Definition response_bool (r : HttpResponse) : bool := is_ok (raise_for_status r).

(** [Response.json()] *)
Definition response_json (r : HttpResponse) : result pyval := json_body r.

(* ------------------------------------------------------------------ *)
(** ** [tools/context_retrieval.py] *)

Definition base_url_not_set : string := "CRA_BASE_URL environment variable is not set".

(** [_get_cra_retrieval_url] (lines 13-18). *)
Definition _get_cra_retrieval_url (env : environ) : result string :=
  let cra_base_url := env_get "CRA_BASE_URL" env in
  match cra_base_url with
  | Some u => if env_missing cra_base_url then Raise (ContextRetrievalError base_url_not_set)
              else Ok (u ++ "/context/retrieve")
  | None => Raise (ContextRetrievalError base_url_not_set)
  end.

(** Lines 92-98, run only when [bool(response)] holds: the ["error"]
    field of the JSON body, or the raw text when that raises. *)
Definition cra_error_detail (response : HttpResponse) (error_msg : string) : string :=
  let attempt :=
    error_data <- response_json response ;;
    has_error <- py_contains "error" error_data ;;
    if has_error then
      (x <- py_getitem error_data "error" ;; Ok (error_msg ++ ": " ++ py_str x))
    else Ok error_msg in
  match attempt with
  | Ok m => m
  | Raise _ => error_msg ++ ": " ++ text response
  end.

(** The [except] clauses of lines 87-105; [response] is the local
    variable, [None] until [requests.post] returns. *)
Definition cra_except (cra_url : string) (response : option HttpResponse) (e : exn)
    : result pyval :=
  match e with
  | RequestsError ConnectionError m =>
      Raise (ContextRetrievalError ("Failed to connect to CRA at " ++ cra_url ++ ": " ++ m))
  | RequestsError HTTPError _ =>
      let truthy := match response with Some r => response_bool r | None => false end in
      let error_msg :=
        "CRA returned error status " ++
        (match response with
         | Some r => if truthy then z_to_string (status_code r) else "unknown"
         | None => "unknown"
         end) in
      let error_msg :=
        match response with
        | Some r => if truthy then cra_error_detail r error_msg else error_msg
        | None => error_msg
        end in
      Raise (ContextRetrievalError error_msg)
  | RequestsError _ m => Raise (ContextRetrievalError ("CRA request failed: " ++ m))
  | ValueError m => Raise (ContextRetrievalError ("Failed to parse CRA response as JSON: " ++ m))
  | e => Raise e
  end.

(** [context_retrieval_tool] (lines 21-105): the result and the HTTP
    requests sent. *)
Definition context_retrieval_tool (env : environ) (send : Transport)
    (query : string) (max_refined_query : Z) : result pyval * list HttpRequest :=
  match _get_cra_retrieval_url env with
  | Raise e => (Raise e, [])
  | Ok cra_url =>
      let repository_id := env_get "CRA_REPOSITORY_ID" env in
      if env_missing repository_id then
        (Raise (ContextRetrievalError
                  "CRA_REPOSITORY_ID environment variable is not set. Repository must be uploaded first."), [])
      else
        let rid := match repository_id with Some s => s | None => "" end in
        match py_int rid with
        | Raise e => (Raise e, [])
        | Ok n =>
            let payload := PDict [("query", PStr query);
                                  ("max_refined_query_loop", PInt max_refined_query);
                                  ("repository_id", PInt n)] in
            let req := HttpPost cra_url payload in
            let outcome :=
              match send req with
              | Raise e => cra_except cra_url None e
              | Ok response =>
                  match (_ <- raise_for_status response ;;
                         j <- response_json response ;;
                         py_getitem j "data") with
                  | Ok data => Ok data
                  | Raise e => cra_except cra_url (Some response) e
                  end
              end in
            (outcome, [req])
        end
  end.

(* ------------------------------------------------------------------ *)
(** ** [utils/repository.py] *)

(** [get_cra_base_url] (lines 13-18). *)
Definition get_cra_base_url (env : environ) : result string :=
  let base_url := env_get "CRA_BASE_URL" env in
  match base_url with
  | Some u => if env_missing base_url then Raise (RepositoryError base_url_not_set) else Ok u
  | None => Raise (RepositoryError base_url_not_set)
  end.

(** The [HTTPError] clause shared by upload and delete: the status, then
    the ["error"] or else the ["detail"] field, or the raw text when
    reading them raises. *)
Definition repo_http_error_msg (what : string) (response : HttpResponse) : string :=
  let error_msg := what ++ " failed with status " ++ z_to_string (status_code response) in
  let attempt :=
    error_data <- response_json response ;;
    has_error <- py_contains "error" error_data ;;
    if has_error then
      (x <- py_getitem error_data "error" ;; Ok (error_msg ++ ": " ++ py_str x))
    else
      (has_detail <- py_contains "detail" error_data ;;
       if has_detail then
         (x <- py_getitem error_data "detail" ;; Ok (error_msg ++ ": " ++ py_str x))
       else Ok error_msg) in
  match attempt with
  | Ok m => m
  | Raise _ => error_msg ++ ": " ++ text response
  end.

(** The [except] clauses of upload ([what = "Upload"], [parse =
    "upload"]) and delete ([what = "Deletion"], [parse = "deletion"]);
    [response] is unbound until the request returns. *)
Definition repo_except (what parse endpoint : string) (response : option HttpResponse)
    (e : exn) : result pyval :=
  match e with
  | RequestsError ConnectionError m =>
      Raise (RepositoryError ("Failed to connect to CRA at " ++ endpoint ++ ": " ++ m))
  | RequestsError HTTPError _ =>
      match response with
      | Some r => Raise (RepositoryError (repo_http_error_msg what r))
      | None => Raise (UnboundLocalError "response")
      end
  | RequestsError _ m => Raise (RepositoryError (what ++ " request failed: " ++ m))
  | ValueError m =>
      Raise (RepositoryError ("Failed to parse " ++ parse ++ " response as JSON: " ++ m))
  | e => Raise e
  end.

(** [upload_repository] (lines 21-97). *)
Definition upload_repository (env : environ) (send : Transport)
    (https_url : string) (commit_id : option string) : result pyval * list HttpRequest :=
  match get_cra_base_url env with
  | Raise e => (Raise e, [])
  | Ok base_url =>
      let endpoint := base_url ++ "/repository/upload/" in
      let payload := PDict [("https_url", PStr https_url);
                            ("commit_id", match commit_id with Some c => PStr c | None => PNone end)] in
      let req := HttpPost endpoint payload in
      let outcome :=
        match send req with
        | Raise e => repo_except "Upload" "upload" endpoint None e
        | Ok response =>
            match (_ <- raise_for_status response ;;
                   j <- response_json response ;;
                   data <- py_getitem j "data" ;;
                   has_id <- py_contains "repository_id" data ;;
                   if has_id then Ok data
                   else Raise (RepositoryError
                                 ("Invalid upload response: missing 'repository_id' field. Got: "
                                  ++ py_str data))) with
            | Ok data => Ok data
            | Raise e => repo_except "Upload" "upload" endpoint (Some response) e
            end
        end in
      (outcome, [req])
  end.

(** [delete_repository] (lines 100-172). *)
Definition delete_repository (env : environ) (send : Transport)
    (repository_id : Z) (force : bool) : result pyval * list HttpRequest :=
  match get_cra_base_url env with
  | Raise e => (Raise e, [])
  | Ok base_url =>
      let endpoint := base_url ++ "/repository/delete/" in
      let params := [("repository_id", PInt repository_id); ("force", PBool force)] in
      let req := HttpDelete endpoint params in
      let outcome :=
        match send req with
        | Raise e => repo_except "Deletion" "deletion" endpoint None e
        | Ok response =>
            match (_ <- raise_for_status response ;; response_json response) with
            | Ok data => Ok data
            | Raise e => repo_except "Deletion" "deletion" endpoint (Some response) e
            end
        end in
      (outcome, [req])
  end.

(* ------------------------------------------------------------------ *)
(** ** Concrete inputs: the spec's mock CRA server *)

Definition mock_env : environ :=
  [("CRA_BASE_URL", "http://localhost:8000"); ("CRA_REPOSITORY_ID", "1")].

Definition mock_context : pyval :=
  PDict [("relative_path", PStr "auth.py"); ("content", PStr "...");
         ("start_line_number", PInt 10); ("end_line_number", PInt 20)].

Definition mock_data : pyval :=
  PDict [("contexts", PList [mock_context]); ("total_contexts", PInt 1)].

Definition mock_ok_response : HttpResponse :=
  {| status_code := 200; text := "";
     json_body := Ok (PDict [("data", mock_data)]) |}.

Definition mock_not_found : HttpResponse :=
  {| status_code := 404; text := "repository not found";
     json_body := Ok (PDict [("error", PStr "repository not found")]) |}.

(** The optional fields [query] copies into the payload. *)
Definition tool_fields : list string := ["tool_calls"; "tool_call_id"; "name"].

(** Concrete provider behaviours and configs. *)
Definition steady_provider (response : ModelResponse) (c : PrimFloat.float) : Provider :=
  {| completion := fun _ _ _ _ => Ok response; completion_cost := fun _ _ => Ok c |}.

(** Fails with a rate limit [fails] times, then answers. *)
Definition flaky_provider (fails : nat) (response : ModelResponse) (c : PrimFloat.float) : Provider :=
  {| completion := fun n _ _ _ =>
       if Nat.leb n fails then Raise (ProviderError (OtherProviderError "RateLimitError") "429")
       else Ok response;
     completion_cost := fun _ _ => Ok c |}.

Definition hello_response : ModelResponse :=
  {| choices := [{| m_content := Some "hello"; m_tool_calls := None |}]; model_dump := PNone |}.

(** A response with an empty [choices] list. *)
Definition no_choice_response : ModelResponse := {| choices := []; model_dump := PNone |}.

Definition cfg_with (mode : string) : LitellmModelConfig :=
  {| model_name := "gpt-4o"; model_kwargs := []; set_cache_control := None;
     cost_tracking := mode |}.

Definition user_hi : list dict := [[("role", PStr "user"); ("content", PStr "hi")]].

(** A cache-control step that changes nothing. *)
Definition no_scc : list dict -> string -> list dict := fun ms _ => ms.

(** The ["id"] of an entry of a result's ["tool_calls"] list. *)
Definition result_tool_call_id (v : pyval) : option pyval :=
  match v with PDict d => dict_lookup "id" d | _ => None end.

(** A server answering every request with [r]. *)
Definition always (r : HttpResponse) : Transport := fun _ => Ok r.

(** A transport whose connection is refused, one that times out. *)
Definition refused : Transport := fun _ => Raise (RequestsError ConnectionError "Connection refused").

Definition timed_out : Transport :=
  fun _ => Raise (RequestsError OtherRequestException "Read timed out").

(** A 404 whose body has only a ["detail"] field. *)
Definition mock_detail_error : HttpResponse :=
  {| status_code := 404; text := "not found"; json_body := Ok (PDict [("detail", PStr "gone")]) |}.

(** A 200 whose body is an HTML page, not JSON. *)
Definition mock_html_ok : HttpResponse :=
  {| status_code := 200; text := "<html></html>";
     json_body := Raise (RequestsError JSONDecodeError "Expecting value: line 1 column 1 (char 0)") |}.

(** A 200 whose body is a JSON integer of 5000 digits: [json.loads]
    raises the plain [ValueError] of [int()]'s digit limit. *)
Definition mock_big_int_ok : HttpResponse :=
  {| status_code := 200; text := "";
     json_body := Raise (ValueError (int_limit_message 5000)) |}.

(** A 302 that carries the usual envelope. *)
Definition mock_redirect : HttpResponse :=
  {| status_code := 302; text := ""; json_body := Ok (PDict [("data", mock_data)]) |}.

(** A 200 whose envelope has no ["data"]. *)
Definition mock_no_data : HttpResponse :=
  {| status_code := 200; text := ""; json_body := Ok (PDict [("status", PStr "ok")]) |}.

(** A 200 whose ["data"] is a string. *)
Definition mock_string_data : HttpResponse :=
  {| status_code := 200; text := "";
     json_body := Ok (PDict [("data", PStr "repository_id: 7")]) |}.

(** A response whose first choice is a single tool call. *)
Definition tool_call_response : ModelResponse :=
  {| choices := [{| m_content := None;
                    m_tool_calls := Some [{| tc_id := "call_1"; tc_type := "function";
                                             tc_function_name := "bash";
                                             tc_function_arguments := "{}" |}] |}];
     model_dump := PNone |}.

(** Rate-limited on the first [fails] attempts, then failing with [e]. *)
Definition rejecting_provider (fails : nat) (e : exn) : Provider :=
  {| completion := fun n _ _ _ =>
       if Nat.leb n fails then Raise (ProviderError (OtherProviderError "RateLimitError") "429")
       else Raise e;
     completion_cost := fun _ _ => Ok 1%float |}.

(** Answers, but is interrupted while its cost is computed. *)
Definition interrupted_provider : Provider :=
  {| completion := fun _ _ _ _ => Ok hello_response;
     completion_cost := fun _ _ => Raise (ProviderError KeyboardInterrupt "") |}.

(** A config with configured keyword arguments. *)
Definition cfg_kwargs : LitellmModelConfig :=
  {| model_name := "gpt-4o"; model_kwargs := [("temperature", PInt 0); ("max_tokens", PInt 100)];
     set_cache_control := None; cost_tracking := "default" |}.

(* ================================================================== *)
(** * Sanity checks on concrete inputs *)

Example filter_message_drops_extra :
  filter_message [("role", PStr "user"); ("cache_control", PNone);
                  ("name", PStr "bob"); ("extra", PInt 3)]
  = Ok [("role", PStr "user"); ("content", PStr ""); ("name", PStr "bob")].
Proof. reflexivity. Qed.

Example py_int_examples :
  py_int " 12 " = Ok 12%Z /\ py_int "-1_000" = Ok (-1000)%Z /\
  (* U+0663 ARABIC-INDIC DIGIT THREE, then U+3000 IDEOGRAPHIC SPACE *)
  py_int (string_of_bytes [217; 163; 227; 128; 128]%Z) = Ok 3%Z /\
  py_int "1__0" = Raise (ValueError "invalid literal for int() with base 10: '1__0'") /\
  py_int "" = Raise (ValueError "invalid literal for int() with base 10: ''") /\
  py_int (string_of_bytes (repeat 49%Z 4301)) = Raise (ValueError (int_limit_message 4301)).
Proof. vm_compute. repeat split. Qed.

Example str_repr_examples :
  str_repr "a'b" = String (ascii_of_nat 34) "a'b" ++ String (ascii_of_nat 34) "" /\
  str_repr (String (ascii_of_nat 9) "x") = "'\tx'" /\
  str_repr (string_of_bytes [255]%Z) = "'\udcff'".
Proof. vm_compute. repeat split. Qed.

Example float_repr_examples :
  float_repr 0.1 = "0.1" /\ float_repr (0.1 + 1.1)%float = "1.2000000000000002" /\
  float_repr 1e16 = "1e+16" /\ float_repr 1e-5 = "1e-05" /\ float_repr 100 = "100.0" /\
  float_repr 0 = "0.0" /\ float_repr (-0)%float = "-0.0" /\ float_repr nan = "nan" /\
  float_repr (-infinity)%float = "-inf".
Proof. vm_compute. repeat split. Qed.

Example z_to_string_examples :
  z_to_string 404 = "404" /\ z_to_string 0 = "0" /\ z_to_string (-17) = "-17".
Proof. vm_compute. repeat split. Qed.

Example wait_exponential_examples :
  map wait_exponential [1; 2; 3; 4; 5; 6; 7; 8]%nat = [4; 4; 4; 8; 16; 32; 60; 60]%Z.
Proof. reflexivity. Qed.

Example dict_merge_example :
  dict_merge [("a", PInt 1); ("b", PInt 2)] [("b", PInt 3); ("c", PInt 4)]
  = [("a", PInt 1); ("b", PInt 3); ("c", PInt 4)].
Proof. reflexivity. Qed.

(* ================================================================== *)
(** * The CRA clients *)

(** Every exception [int(s)] raises is a [ValueError]. *)
Lemma py_int_error s e : py_int s = Raise e -> exists m, e = ValueError m.
Proof.
  unfold py_int. cbv zeta.
  repeat match goal with
         | |- context [if ?b then _ else _] => destruct b
         | |- context [match ?x with _ => _ end] => destruct x
         end; intro H; inversion H; eauto.
Qed.

Section CRA.

Variable send : Transport.

Lemma _get_cra_retrieval_url_ok env :
  env_missing (env_get "CRA_BASE_URL" env) = false ->
  exists u, env_get "CRA_BASE_URL" env = Some u /\
            _get_cra_retrieval_url env = Ok (u ++ "/context/retrieve").
Proof.
  unfold _get_cra_retrieval_url. destruct (env_get "CRA_BASE_URL" env) as [u|];
    simpl; intro H; [rewrite H; eauto | discriminate].
Qed.

Lemma get_cra_base_url_ok env :
  env_missing (env_get "CRA_BASE_URL" env) = false ->
  exists u, env_get "CRA_BASE_URL" env = Some u /\ get_cra_base_url env = Ok u.
Proof.
  unfold get_cra_base_url. destruct (env_get "CRA_BASE_URL" env) as [u|];
    simpl; intro H; [rewrite H; eauto | discriminate].
Qed.

Lemma raise_for_status_2xx r :
  (200 <= status_code r < 300)%Z -> raise_for_status r = Ok tt.
Proof.
  intro H. unfold raise_for_status.
  destruct ((400 <=? status_code r) && (status_code r <? 500))%Z eqn:E1.
  { apply andb_true_iff in E1 as [E1 _]. apply Z.leb_le in E1. lia. }
  destruct ((500 <=? status_code r) && (status_code r <? 600))%Z eqn:E2.
  { apply andb_true_iff in E2 as [E2 _]. apply Z.leb_le in E2. lia. }
  reflexivity.
Qed.

Lemma raise_for_status_error r :
  (400 <= status_code r < 600)%Z ->
  exists m, raise_for_status r = Raise (RequestsError HTTPError m).
Proof.
  intro H. unfold raise_for_status.
  destruct ((400 <=? status_code r) && (status_code r <? 500))%Z eqn:E1; [eauto|].
  destruct ((500 <=? status_code r) && (status_code r <? 600))%Z eqn:E2; [eauto|].
  exfalso.
  destruct (Z.lt_ge_cases (status_code r) 500).
  - assert (T : ((400 <=? status_code r) && (status_code r <? 500))%Z = true)
      by (apply andb_true_iff; split; [apply Z.leb_le | apply Z.ltb_lt]; lia).
    congruence.
  - assert (T : ((500 <=? status_code r) && (status_code r <? 600))%Z = true)
      by (apply andb_true_iff; split; [apply Z.leb_le | apply Z.ltb_lt]; lia).
    congruence.
Qed.

(** C6: with [CRA_BASE_URL] unset or empty, [context_retrieval_tool],
    [upload_repository] and [delete_repository] raise their domain error
    with the message "CRA_BASE_URL environment variable is not set",
    and send no HTTP request. *)
Theorem missing_base_url_fails_before_network env query mrq https_url commit_id
    repository_id force :
  env_missing (env_get "CRA_BASE_URL" env) = true ->
  context_retrieval_tool env send query mrq
    = (Raise (ContextRetrievalError base_url_not_set), []) /\
  upload_repository env send https_url commit_id
    = (Raise (RepositoryError base_url_not_set), []) /\
  delete_repository env send repository_id force
    = (Raise (RepositoryError base_url_not_set), []) /\
  String.index 0 "CRA_BASE_URL" base_url_not_set = Some 0.
Proof.
  intro H.
  unfold context_retrieval_tool, upload_repository, delete_repository,
    _get_cra_retrieval_url, get_cra_base_url.
  destruct (env_get "CRA_BASE_URL" env) as [u|]; rewrite ?H;
    repeat split; reflexivity.
Qed.

(** C10: with [CRA_BASE_URL] set, an unset or empty [CRA_REPOSITORY_ID]
    raises [ContextRetrievalError], while a non-empty value that [int()]
    rejects makes the call raise that plain [ValueError] (not a
    [ContextRetrievalError]); neither sends a request. *)
Theorem repository_id_validation env query mrq :
  env_missing (env_get "CRA_BASE_URL" env) = false ->
  (env_missing (env_get "CRA_REPOSITORY_ID" env) = true ->
   context_retrieval_tool env send query mrq
   = (Raise (ContextRetrievalError
               "CRA_REPOSITORY_ID environment variable is not set. Repository must be uploaded first."), [])) /\
  (forall rid e, env_get "CRA_REPOSITORY_ID" env = Some rid -> rid <> "" -> py_int rid = Raise e ->
   exists m, e = ValueError m /\
             context_retrieval_tool env send query mrq = (Raise (ValueError m), [])).
Proof.
  intro Hb. destruct (_get_cra_retrieval_url_ok env Hb) as (u & _ & Hu).
  unfold context_retrieval_tool. rewrite Hu. split.
  - intro Hr. rewrite Hr. reflexivity.
  - intros rid e Hr Hne Hint. rewrite Hr. simpl.
    destruct (py_int_error rid e Hint) as (m & ->). exists m. split; [reflexivity|].
    destruct (String.eqb rid "") eqn:E.
    + apply String.eqb_eq in E. contradiction.
    + rewrite Hint. reflexivity.
Qed.

Lemma context_retrieval_request env rid n query mrq :
  env_missing (env_get "CRA_BASE_URL" env) = false ->
  env_get "CRA_REPOSITORY_ID" env = Some rid -> rid <> "" -> py_int rid = Ok n ->
  exists cra_url,
    context_retrieval_tool env send query mrq =
    (match send (HttpPost cra_url (PDict [("query", PStr query);
                                         ("max_refined_query_loop", PInt mrq);
                                         ("repository_id", PInt n)])) with
     | Raise e => cra_except cra_url None e
     | Ok response =>
         match (_ <- raise_for_status response ;;
                j <- response_json response ;;
                py_getitem j "data") with
         | Ok data => Ok data
         | Raise e => cra_except cra_url (Some response) e
         end
     end,
     [HttpPost cra_url (PDict [("query", PStr query);
                              ("max_refined_query_loop", PInt mrq);
                              ("repository_id", PInt n)])]).
Proof.
  intros Hb Hr Hne Hint. destruct (_get_cra_retrieval_url_ok env Hb) as (u & _ & Hu).
  exists (u ++ "/context/retrieve").
  unfold context_retrieval_tool. rewrite Hu, Hr. simpl.
  destruct (String.eqb rid "") eqn:E.
  - apply String.eqb_eq in E. contradiction.
  - rewrite Hint. reflexivity.
Qed.

(** C8: on a 2xx response whose JSON envelope has a ["data"] field,
    [context_retrieval_tool] returns exactly that field's value; on the
    spec's mock server this is a mapping with one context entry, whose
    fields are those of the mock snippet. *)
Theorem context_retrieval_returns_data env rid n query mrq resp envelope v :
  env_missing (env_get "CRA_BASE_URL" env) = false ->
  env_get "CRA_REPOSITORY_ID" env = Some rid -> rid <> "" -> py_int rid = Ok n ->
  (forall req, send req = Ok resp) ->
  (200 <= status_code resp < 300)%Z ->
  json_body resp = Ok (PDict envelope) -> dict_lookup "data" envelope = Some v ->
  fst (context_retrieval_tool env send query mrq) = Ok v /\
  (fst (context_retrieval_tool mock_env (always mock_ok_response) "find auth logic" 2)
   = Ok mock_data /\
   exists contexts total,
     mock_data = PDict [("contexts", PList contexts); ("total_contexts", total)] /\
     contexts = [PDict [("relative_path", PStr "auth.py"); ("content", PStr "...");
                        ("start_line_number", PInt 10); ("end_line_number", PInt 20)]]).
Proof.
  intros Hb Hr Hne Hint Hsend Hst Hj Hd. split.
  - destruct (context_retrieval_request env rid n query mrq Hb Hr Hne Hint) as (u & ->).
    simpl. rewrite Hsend, (raise_for_status_2xx resp Hst). simpl.
    unfold response_json. rewrite Hj. simpl. rewrite Hd. reflexivity.
  - split; [vm_compute; reflexivity|]. eexists _, _. split; reflexivity.
Qed.

(** C7: on a 2xx response whose ["data"] mapping lacks
    ["repository_id"], [upload_repository] raises a [RepositoryError]
    whose message names the missing field; when the field is there, the
    mapping is returned. *)
Theorem upload_validates_repository_id env https_url commit_id resp envelope data :
  env_missing (env_get "CRA_BASE_URL" env) = false ->
  (forall req, send req = Ok resp) ->
  (200 <= status_code resp < 300)%Z ->
  json_body resp = Ok (PDict envelope) -> dict_lookup "data" envelope = Some (PDict data) ->
  (dict_in "repository_id" data = false ->
   fst (upload_repository env send https_url commit_id)
   = Raise (RepositoryError ("Invalid upload response: missing 'repository_id' field. Got: "
                             ++ py_repr (PDict data)))) /\
  (dict_in "repository_id" data = true ->
   fst (upload_repository env send https_url commit_id) = Ok (PDict data)).
Proof.
  intros Hb Hsend Hst Hj Hd. destruct (get_cra_base_url_ok env Hb) as (u & _ & Hu).
  unfold upload_repository. rewrite Hu, Hsend, (raise_for_status_2xx resp Hst).
  unfold response_json. rewrite Hj. simpl. rewrite Hd. simpl.
  split; intro Hin; rewrite Hin; reflexivity.
Qed.

(** C9 (defect): for every 4xx/5xx response, whatever its body, the
    [ContextRetrievalError] of [context_retrieval_tool] reads "CRA
    returned error status unknown": [if response] is [Response.__bool__],
    i.e. [response.ok], which is false for exactly these responses, so
    neither the status nor the body's error is added. *)
Theorem context_retrieval_http_error_message env rid n query mrq resp :
  env_missing (env_get "CRA_BASE_URL" env) = false ->
  env_get "CRA_REPOSITORY_ID" env = Some rid -> rid <> "" -> py_int rid = Ok n ->
  (forall req, send req = Ok resp) ->
  (400 <= status_code resp < 600)%Z ->
  fst (context_retrieval_tool env send query mrq)
  = Raise (ContextRetrievalError "CRA returned error status unknown").
Proof.
  intros Hb Hr Hne Hint Hsend Hst.
  destruct (context_retrieval_request env rid n query mrq Hb Hr Hne Hint) as (u & ->).
  destruct (raise_for_status_error resp Hst) as (m & Hm).
  simpl. rewrite Hsend, Hm. simpl. unfold response_bool. rewrite Hm. reflexivity.
Qed.

(** The sibling path: [upload_repository] puts the status and the body's
    ["error"] into its message. *)
Example upload_http_error_message :
  fst (upload_repository mock_env (always mock_not_found) "https://github.com/u/r.git" None)
  = Raise (RepositoryError "Upload failed with status 404: repository not found").
Proof. vm_compute. reflexivity. Qed.

End CRA.

(* ================================================================== *)
(** * The model client *)

Example query_hello :
  let r := query 10 no_scc (steady_provider hello_response 1) (cfg_with "default")
             init_state 0 user_hi [] in
  q_outcome r = Ok (PDict [("content", PStr "hello"); ("extra", PDict [("response", PNone)])]) /\
  n_calls (q_state r) = 1%nat /\ q_attempts r = 1%nat.
Proof. vm_compute. repeat split. Qed.

Example query_retries_rate_limit :
  q_attempts (query 10 no_scc (flaky_provider 3 hello_response 1) (cfg_with "default")
                init_state 0 user_hi []) = 4%nat.
Proof. vm_compute. reflexivity. Qed.

Example query_gives_up_after_ceiling :
  let r := query 2 no_scc (flaky_provider 3 hello_response 1) (cfg_with "default")
             init_state 0 user_hi [] in
  q_attempts r = 2%nat /\ is_ok (q_outcome r) = false /\ q_state r = init_state.
Proof. vm_compute. repeat split. Qed.

(** ** Projection of the messages *)

Lemma filter_message_spec m fm :
  filter_message m = Ok fm ->
  dict_keys fm = (["role"; "content"] ++ filter (fun k => dict_in k m) tool_fields)%list /\
  dict_lookup "role" fm = dict_lookup "role" m /\
  dict_lookup "content" fm = Some (dict_get "content" m (PStr "")) /\
  Forall (fun k => dict_lookup k fm = dict_lookup k m) tool_fields.
Proof.
  unfold filter_message, copy_if_present, tool_fields, dict_in.
  destruct (dict_lookup "role" m) as [role|] eqn:Hr; [|discriminate].
  intro H; injection H as <-.
  destruct (dict_lookup "tool_calls" m) eqn:H1;
  destruct (dict_lookup "tool_call_id" m) eqn:H2;
  destruct (dict_lookup "name" m) eqn:H3;
    simpl; rewrite ?H1, ?H2, ?H3; repeat split; repeat constructor; auto.
Qed.

Lemma filter_messages_spec ms fms :
  filter_messages ms = Ok fms -> Forall2 (fun m fm => filter_message m = Ok fm) ms fms.
Proof.
  revert fms. induction ms as [|m ms IH]; simpl; intros fms H.
  - injection H as <-. constructor.
  - destruct (filter_message m) as [fm|e] eqn:Hm; [|discriminate]. simpl in H.
    destruct (filter_messages ms) as [fms'|e] eqn:Hms; [|discriminate]. simpl in H.
    injection H as <-. constructor; auto.
Qed.

Lemma query_payload_filtered stop scc p cfg st g messages kwargs payload :
  q_payload (query stop scc p cfg st g messages kwargs) = Some payload ->
  filter_messages (prepare_messages scc cfg messages) = Ok payload.
Proof.
  unfold query. destruct (filter_messages (prepare_messages scc cfg messages)); [|discriminate].
  destruct (rr_outcome (_query stop p cfg a kwargs)); [|simpl; congruence].
  destruct (cost_check p cfg a0); simpl; congruence.
Qed.

(** C4: each message sent to the provider has exactly the keys
    ["role"], ["content"] and those of ["tool_calls"], ["tool_call_id"],
    ["name"] present in the corresponding input message (the messages
    after the cache-control step, which is the identity when that mode is
    unset); ["content"] defaults to [""]; the copied fields keep their
    values. *)
Theorem query_payload_fields stop scc p cfg st g messages kwargs payload :
  q_payload (query stop scc p cfg st g messages kwargs) = Some payload ->
  Forall2 (fun m fm =>
      dict_keys fm = (["role"; "content"] ++ filter (fun k => dict_in k m) tool_fields)%list /\
      dict_lookup "role" fm = dict_lookup "role" m /\
      dict_lookup "content" fm = Some (dict_get "content" m (PStr "")) /\
      Forall (fun k => dict_lookup k fm = dict_lookup k m) tool_fields)
    (prepare_messages scc cfg messages) payload.
Proof.
  intro H. apply query_payload_filtered, filter_messages_spec in H.
  eapply Forall2_impl; [|exact H]. intros m fm. apply filter_message_spec.
Qed.

(** ** The retry loop *)

Lemma retry_from_success {A} (f : nat -> result A) a stop d :
  forall fuel n,
  (forall m, n <= m < n + d -> exists e, f m = Raise e /\ retryable e = true) ->
  f (n + d) = Ok a -> n + d <= stop -> stop <= fuel + n ->
  rr_outcome (retry_from fuel stop f n) = Ok a /\ rr_attempts (retry_from fuel stop f n) = n + d.
Proof.
  induction d as [|d IH]; intros fuel n Hfail Hok Hle Hfuel.
  - rewrite Nat.add_0_r in *. destruct fuel; simpl; rewrite Hok; auto.
  - destruct (Hfail n) as (e & He & Hr); [lia|].
    unfold retryable in Hr. apply negb_true_iff in Hr.
    assert (Hstop : Nat.leb stop n = false) by (apply Nat.leb_gt; lia).
    destruct fuel as [|fuel]; [lia|].
    simpl. rewrite He, Hr, Hstop. simpl.
    rewrite Nat.add_succ_r, <- Nat.add_succ_l in *.
    apply IH; auto; [|lia].
    intros m Hm. apply Hfail. lia.
Qed.

Lemma _query_body_retryable p cfg messages kwargs n e :
  completion p n (model_name cfg) messages (dict_merge (model_kwargs cfg) kwargs) = Raise e ->
  retryable e = true -> _query_body p cfg messages kwargs n = Raise e.
Proof.
  unfold _query_body. intros H Hr. rewrite H. f_equal.
  destruct e as [| | | | |[]| | | | |]; try reflexivity; discriminate.
Qed.

Lemma non_retryable_add_auth_hint e :
  non_retryable (add_auth_hint e) = non_retryable e.
Proof. destruct e as [| | | | |[]| | | | |]; reflexivity. Qed.

(** C2: when the provider raises retryable errors on attempts
    [1 .. k-1] and answers on attempt [k <= stop], the decorated
    [_query] returns that answer after exactly [k] attempts; when its
    first answer is a non-retryable error, it makes exactly one attempt,
    sleeps not at all, and re-raises that error (an
    [AuthenticationError] with the configuration hint appended). *)
Theorem _query_retry_attempts stop p cfg messages kwargs :
  let call n := completion p n (model_name cfg) messages (dict_merge (model_kwargs cfg) kwargs) in
  (forall k response,
     1 <= k <= stop ->
     (forall n, 1 <= n < k -> exists e, call n = Raise e /\ retryable e = true) ->
     call k = Ok response ->
     rr_outcome (_query stop p cfg messages kwargs) = Ok response /\
     rr_attempts (_query stop p cfg messages kwargs) = k) /\
  (forall e,
     call 1 = Raise e -> non_retryable e = true ->
     rr_outcome (_query stop p cfg messages kwargs) = Raise (add_auth_hint e) /\
     rr_attempts (_query stop p cfg messages kwargs) = 1 /\
     rr_sleeps (_query stop p cfg messages kwargs) = []).
Proof.
  intro call. split.
  - intros k response Hk Hfail Hok. unfold _query, retry.
    replace k with (1 + (k - 1)) by lia.
    apply retry_from_success; [| |lia|lia].
    + intros m Hm. destruct (Hfail m) as (e & He & Hr); [lia|].
      exists e. split; auto. apply _query_body_retryable; auto.
    + replace (1 + (k - 1)) with k by lia. unfold _query_body.
      unfold call in Hok. rewrite Hok. reflexivity.
  - intros e He Hn. unfold _query, retry.
    destruct stop; simpl; unfold _query_body; unfold call in He; rewrite He;
      rewrite non_retryable_add_auth_hint, Hn; auto.
Qed.

(** ** Counters and cost *)

(** Every run of [query] either leaves the instance and the accumulator
    as they were, raising, or got a response, passed the cost check with
    the cost [q_cost], counted it, and then returns (or raises) what
    normalising the response gives. *)
Lemma query_cases stop scc p cfg st g messages kwargs :
  let r := query stop scc p cfg st g messages kwargs in
  (q_state r = st /\ q_global r = g /\ q_cost r = 0%float /\ exists e, q_outcome r = Raise e) \/
  (exists filtered response,
     filter_messages (prepare_messages scc cfg messages) = Ok filtered /\
     rr_outcome (_query stop p cfg filtered kwargs) = Ok response /\
     cost_check p cfg response = Ok (q_cost r) /\
     q_state r = {| n_calls := S (n_calls st); cost := (cost st + q_cost r)%float |} /\
     q_global r = global_stats_add g (q_cost r) /\
     q_outcome r = normalize_response response).
Proof.
  unfold query.
  destruct (filter_messages (prepare_messages scc cfg messages)) as [filtered|e] eqn:Hf;
    [|left; simpl; eauto 6].
  destruct (rr_outcome (_query stop p cfg filtered kwargs)) as [response|e] eqn:Hq;
    [|left; simpl; eauto 6].
  destruct (cost_check p cfg response) as [c|e] eqn:Hc; [|left; simpl; eauto 6].
  right. exists filtered, response. simpl. auto 7.
Qed.

(** Adding the float [0.0]: a number other than NaN keeps its value
    ([-0.0] becomes [0.0], equal to it), and a non-negative one stays
    non-negative. *)
Lemma Prim2SF_zero : Prim2SF 0%float = S754_zero false.
Proof. reflexivity. Qed.

Lemma add_zero_spec x :
  Prim2SF (x + 0)%float =
  match Prim2SF x with S754_zero _ => S754_zero false | y => y end.
Proof.
  rewrite FloatAxioms.add_spec, Prim2SF_zero. unfold SF64add, SFadd.
  destruct (Prim2SF x) as [[]|[]| |[] m e]; reflexivity.
Qed.

Lemma is_nan_false x : is_nan x = false -> Prim2SF x <> S754_nan.
Proof.
  unfold is_nan. rewrite FloatAxioms.eqb_spec. intros H E. rewrite E in H. discriminate.
Qed.

Lemma add_zero_same x :
  is_nan x = false -> (x <=? x + 0)%float = true /\ (x + 0 <=? x)%float = true.
Proof.
  intro Hn. apply is_nan_false in Hn. revert Hn.
  rewrite !FloatAxioms.leb_spec, add_zero_spec. unfold SFleb, SFcompare.
  destruct (Prim2SF x) as [[]|[]| |[] m e]; intro Hn; try (contradiction Hn; reflexivity);
    split; try reflexivity.
  all: rewrite Z.compare_refl;
    replace (PosDef.Pos.compare_cont Eq m m) with Eq by (symmetry; exact (Pos.compare_refl m));
    reflexivity.
Qed.

Lemma add_zero_nonneg x : (0 <=? x)%float = true -> (0 <=? x + 0)%float = true.
Proof.
  rewrite !FloatAxioms.leb_spec, add_zero_spec, Prim2SF_zero.
  destruct (Prim2SF x) as [[]|[]| |[] m e]; auto.
Qed.

(** C3: when the cost calculation raises an [Exception] or returns a
    float cost [<= 0.0], outside mode ["ignore_errors"] [query] raises
    [RuntimeError] with the message of the source, naming the model, the
    error's text (["Cost must be > 0.0, got "] and the cost's [repr] for
    a non-positive cost), and counts nothing; in mode ["ignore_errors"]
    it goes on to normalise the response, counting the call with cost
    [0.0]: the instance's cost and the accumulator have [0.0] added,
    which keeps their value (unless NaN) and their sign. *)
Theorem cost_failure_handling stop scc p cfg st g messages kwargs filtered response :
  filter_messages (prepare_messages scc cfg messages) = Ok filtered ->
  rr_outcome (_query stop p cfg filtered kwargs) = Ok response ->
  match completion_cost p response (model_name cfg) with
  | Ok c => (c <=? 0)%float = true
  | Raise e => is_Exception e = true
  end ->
  let r := query stop scc p cfg st g messages kwargs in
  (cost_tracking cfg <> "ignore_errors" ->
     q_state r = st /\ q_global r = g /\
     exists m, q_outcome r = Raise (RuntimeError (cost_error_message cfg m)) /\
       (forall c, completion_cost p response (model_name cfg) = Ok c ->
          m = "Cost must be > 0.0, got " ++ float_repr c) /\
       (forall e, completion_cost p response (model_name cfg) = Raise e -> m = exn_str e)) /\
  (cost_tracking cfg = "ignore_errors" ->
     q_cost r = 0%float /\ q_outcome r = normalize_response response /\
     n_calls (q_state r) = S (n_calls st) /\
     cost (q_state r) = (cost st + 0)%float /\ q_global r = (g + 0)%float /\
     (is_nan (cost st) = false ->
        (cost st <=? cost (q_state r))%float = true /\ (cost (q_state r) <=? cost st)%float = true) /\
     ((0 <=? cost st)%float = true -> (0 <=? cost (q_state r))%float = true) /\
     (is_nan g = false -> (g <=? q_global r)%float = true /\ (q_global r <=? g)%float = true) /\
     ((0 <=? g)%float = true -> (0 <=? q_global r)%float = true)).
Proof.
  intros Hf Hq Hcost r. subst r. unfold query. rewrite Hf, Hq. unfold cost_check.
  destruct (completion_cost p response (model_name cfg)) as [c|e].
  - rewrite Hcost. cbn [is_Exception cost_value_error]. split.
    + intro Hmode. apply String.eqb_neq in Hmode. rewrite Hmode. cbn [q_state q_global q_outcome].
      split; [reflexivity|]. split; [reflexivity|].
      exists (exn_str (cost_value_error c)). split; [reflexivity|]. split.
      * intros c' Hc'. injection Hc' as <-. reflexivity.
      * intros e' He'. discriminate.
    + intro Hmode. rewrite Hmode, String.eqb_refl.
      cbn [q_cost q_outcome q_state q_global n_calls cost]. unfold global_stats_add.
      do 5 (split; [reflexivity|]).
      split; [apply add_zero_same|]. split; [apply add_zero_nonneg|].
      split; [apply add_zero_same|apply add_zero_nonneg].
  - rewrite Hcost. split.
    + intro Hmode. apply String.eqb_neq in Hmode. rewrite Hmode. cbn [q_state q_global q_outcome].
      split; [reflexivity|]. split; [reflexivity|].
      exists (exn_str e). split; [reflexivity|]. split.
      * intros c' Hc'. discriminate.
      * intros e' He'. injection He' as <-. reflexivity.
    + intro Hmode. rewrite Hmode, String.eqb_refl.
      cbn [q_cost q_outcome q_state q_global n_calls cost]. unfold global_stats_add.
      do 5 (split; [reflexivity|]).
      split; [apply add_zero_same|]. split; [apply add_zero_nonneg|].
      split; [apply add_zero_same|apply add_zero_nonneg].
Qed.

Lemma normalize_response_raises response :
  is_ok (normalize_response response) = false -> choices response = [].
Proof.
  unfold normalize_response. destruct (choices response) as [|m ms]; auto.
  destruct (m_tool_calls m) as [[|]|]; discriminate.
Qed.

(** C5, refuted: a response with no choices, whose cost is 1, makes
    [query] raise [IndexError] after it has counted the call: the
    instance's [n_calls] and cost and the accumulator changed. *)
Lemma failing_query_still_counted :
  let r := query 10 no_scc (steady_provider no_choice_response 1) (cfg_with "default")
             init_state 0 user_hi [] in
  q_outcome r = Raise IndexError /\ is_ok (q_outcome r) = false /\
  q_state r <> init_state /\ n_calls (q_state r) = 1%nat /\
  cost (q_state r) = 1%float /\ q_global r = 1%float.
Proof.
  vm_compute. repeat split; try reflexivity. discriminate.
Qed.

(** C5, as the code has it: a call that raises leaves the instance and
    the accumulator unchanged, unless it raised only after the provider
    answered and the cost check passed, on a response with no choices
    ([response.choices[0]] raises [IndexError]); such a call has been
    counted like a successful one. *)
Theorem raising_query_state stop scc p cfg st g messages kwargs :
  let r := query stop scc p cfg st g messages kwargs in
  is_ok (q_outcome r) = false ->
  (q_state r = st /\ q_global r = g) \/
  (exists filtered response,
     filter_messages (prepare_messages scc cfg messages) = Ok filtered /\
     rr_outcome (_query stop p cfg filtered kwargs) = Ok response /\
     cost_check p cfg response = Ok (q_cost r) /\
     choices response = [] /\ q_outcome r = Raise IndexError /\
     q_state r = {| n_calls := S (n_calls st); cost := (cost st + q_cost r)%float |} /\
     q_global r = global_stats_add g (q_cost r)).
Proof.
  intro r. pose proof (query_cases stop scc p cfg st g messages kwargs) as H.
  cbv zeta in H. fold r in H. intro Hraise.
  destruct H as [(H1 & H2 & _)|(f & resp & Hf & Hq & Hc & H1 & H2 & Ho)]; [left; auto|right].
  exists f, resp.
  assert (Hch : choices resp = []) by (apply normalize_response_raises; congruence).
  unfold normalize_response in Ho. rewrite Hch in Ho. auto 8.
Qed.

(** ** Several calls and several instances *)

Lemma query_ok_counted stop scc p cfg st g messages kwargs :
  let r := query stop scc p cfg st g messages kwargs in
  is_ok (q_outcome r) = true ->
  q_state r = {| n_calls := S (n_calls st); cost := (cost st + q_cost r)%float |} /\
  q_global r = global_stats_add g (q_cost r).
Proof.
  intro r. pose proof (query_cases stop scc p cfg st g messages kwargs) as H.
  cbv zeta in H. fold r in H. intro Hok.
  destruct H as [(_ & _ & _ & e & He)|(f & resp & _ & _ & _ & H1 & H2 & _)].
  - rewrite He in Hok. discriminate.
  - auto.
Qed.

Lemma run_calls_ok stop scc cfg calls :
  forall st g rs st' g',
  run_calls stop scc cfg st g calls = (rs, st', g') ->
  Forall (fun r => is_ok (q_outcome r) = true) rs ->
  n_calls st' = n_calls st + length calls /\
  cost st' = fold_left PrimFloat.add (map q_cost rs) (cost st) /\
  g' = fold_left PrimFloat.add (map q_cost rs) g.
Proof.
  induction calls as [|c cs IH]; simpl; intros st g rs st' g' Hrun Hok.
  - injection Hrun as <- <- <-. simpl. auto.
  - destruct (run_calls stop scc cfg _ _ cs) as [[rs0 st0] g0] eqn:Hcs.
    injection Hrun as <- <- <-.
    inversion Hok as [|r rs1 Hr Hrs]; subst.
    destruct (query_ok_counted stop scc (call_provider c) cfg st g
                (call_messages c) (call_kwargs c) Hr) as [Hst Hg].
    destruct (IH _ _ _ _ _ Hcs Hrs) as (H1 & H2 & H3).
    rewrite Hst in H1, H2. rewrite Hg in H3. simpl in *.
    repeat split; [lia|exact H2|exact H3].
Qed.

Lemma length_update_nth {A} i (x : A) l : length (update_nth i x l) = length l.
Proof.
  revert i. induction l as [|y l IH]; intros [|i]; simpl; auto.
Qed.

Lemma nth_error_update_nth {A} i (x y : A) l j :
  nth_error l i = Some y ->
  nth_error (update_nth i x l) j = if Nat.eqb i j then Some x else nth_error l j.
Proof.
  revert i j. induction l as [|z l IH]; intros [|i] [|j] H; simpl in *; try discriminate; auto.
Qed.

Lemma update_nth_same {A} i (x : A) l : nth_error l i = Some x -> update_nth i x l = l.
Proof.
  revert i. induction l as [|z l IH]; intros [|i] H; simpl in *; try discriminate.
  - injection H as ->. reflexivity.
  - rewrite IH; auto.
Qed.

Lemma counted_of_app i log1 log2 :
  counted_of i (log1 ++ log2)%list = (counted_of i log1 ++ counted_of i log2)%list.
Proof. unfold counted_of. rewrite filter_app, map_app. reflexivity. Qed.

Lemma counted_of_single i j q :
  counted_of i [(j, q)] = if Nat.eqb j i then [q] else [].
Proof. unfold counted_of. simpl. destruct (Nat.eqb j i); reflexivity. Qed.

Lemma counted_of_beyond i log :
  Forall (fun x => fst x < i) log -> counted_of i log = [].
Proof.
  unfold counted_of. induction 1 as [|x log Hx _ IH]; simpl; auto.
  destruct (Nat.eqb_spec (fst x) i); [lia|]. exact IH.
Qed.

(** The invariant of the process: the accumulator is the float sum of
    the counted costs, in order; each instance's [n_calls] is the number
    of its counted costs and its cost their float sum, in order. *)
Lemma world_step_log stop scc w ev log :
  global_cost w = fold_left PrimFloat.add (map snd log) 0%float ->
  Forall (fun x => fst x < length (instances w)) log ->
  (forall i cfg st, nth_error (instances w) i = Some (cfg, st) ->
     n_calls st = length (counted_of i log) /\
     cost st = fold_left PrimFloat.add (counted_of i log) 0%float) ->
  let w' := world_step stop scc w ev in
  let log' := (log ++ counted_entry stop scc w ev)%list in
  global_cost w' = fold_left PrimFloat.add (map snd log') 0%float /\
  Forall (fun x => fst x < length (instances w')) log' /\
  (forall i cfg st, nth_error (instances w') i = Some (cfg, st) ->
     n_calls st = length (counted_of i log') /\
     cost st = fold_left PrimFloat.add (counted_of i log') 0%float).
Proof.
  intros Hg Hlt Hinst w' log'. subst w' log'.
  destruct ev as [cfg0|i0 c]; simpl; rewrite ?app_nil_r.
  - split; [exact Hg|]. split.
    + eapply Forall_impl; [|exact Hlt]. intros x Hx. cbv beta in Hx |- *.
      rewrite length_app. lia.
    + intros i cfg st Hi.
      destruct (Nat.lt_ge_cases i (length (instances w))) as [Hl|Hl].
      * rewrite nth_error_app1 in Hi by exact Hl. exact (Hinst i cfg st Hi).
      * rewrite nth_error_app2 in Hi by exact Hl.
        destruct (i - length (instances w)) as [|k] eqn:Hk; simpl in Hi;
          [|destruct k; discriminate].
        injection Hi as <- <-.
        rewrite counted_of_beyond; [simpl; auto|].
        eapply Forall_impl; [|exact Hlt]. intros x Hx. simpl in Hx. lia.
  - destruct (nth_error (instances w) i0) as [[cfg0 st0]|] eqn:Hi0;
      [|simpl; rewrite app_nil_r; auto].
    pose proof (query_cases stop scc (call_provider c) cfg0 st0 (global_cost w)
                  (call_messages c) (call_kwargs c)) as H. cbv zeta in H.
    set (r := query stop scc (call_provider c) cfg0 st0 (global_cost w)
                (call_messages c) (call_kwargs c)) in *.
    destruct H as [(H1 & H2 & _)|(f & resp & _ & _ & _ & H1 & H2 & _)];
      rewrite H1, H2.
    + rewrite Nat.eqb_refl, app_nil_r, update_nth_same by exact Hi0. simpl. auto.
    + assert (Hne : Nat.eqb (S (n_calls st0)) (n_calls st0) = false)
        by (apply Nat.eqb_neq; lia).
      cbn [n_calls cost instances global_cost]. rewrite Hne. unfold global_stats_add.
      assert (Hlen : i0 < length (instances w))
        by (apply nth_error_Some; rewrite Hi0; discriminate).
      split; [|split].
      * rewrite map_app, fold_left_app, <- Hg. reflexivity.
      * rewrite length_update_nth. apply Forall_app. split; [exact Hlt|].
        constructor; [exact Hlen|constructor].
      * intros i cfg st Hi.
        rewrite (nth_error_update_nth i0 _ (cfg0, st0)) in Hi by exact Hi0.
        rewrite counted_of_app, counted_of_single. revert Hi.
        destruct (Nat.eqb_spec i0 i) as [<-|Hne']; intro Hi.
        -- injection Hi as <- <-.
           destruct (Hinst i0 cfg0 st0 Hi0) as [Hn Hc]. cbn [n_calls cost].
           rewrite length_app, fold_left_app, <- Hn, <- Hc. simpl. split; [lia|reflexivity].
        -- rewrite app_nil_r.
           exact (Hinst i cfg st Hi).
Qed.

Lemma counted_costs_log stop scc evs :
  forall w log,
  global_cost w = fold_left PrimFloat.add (map snd log) 0%float ->
  Forall (fun x => fst x < length (instances w)) log ->
  (forall i cfg st, nth_error (instances w) i = Some (cfg, st) ->
     n_calls st = length (counted_of i log) /\
     cost st = fold_left PrimFloat.add (counted_of i log) 0%float) ->
  let w' := fold_left (world_step stop scc) evs w in
  let log' := (log ++ counted_costs stop scc w evs)%list in
  global_cost w' = fold_left PrimFloat.add (map snd log') 0%float /\
  (forall i cfg st, nth_error (instances w') i = Some (cfg, st) ->
     n_calls st = length (counted_of i log') /\
     cost st = fold_left PrimFloat.add (counted_of i log') 0%float).
Proof.
  induction evs as [|ev evs IH]; intros w log Hg Hlt Hinst; simpl.
  - rewrite app_nil_r. auto.
  - destruct (world_step_log stop scc w ev log Hg Hlt Hinst) as (Hg' & Hlt' & Hinst').
    rewrite app_assoc. exact (IH _ _ Hg' Hlt' Hinst').
Qed.

(** C1, refuted: costs are floats, added as they come.  Model A counts
    [0.1], model B [1.1], model A [0.1] again: the accumulator holds
    [0.1 + 1.1 + 0.1 = 1.3000000000000003], while the instances' costs
    are [0.2] and [1.1], which add up to [1.3]. *)
Lemma accumulator_differs_from_instance_sum :
  let call_a := {| call_provider := steady_provider hello_response 0.1;
                   call_messages := user_hi; call_kwargs := [] |} in
  let call_b := {| call_provider := steady_provider hello_response 1.1;
                   call_messages := user_hi; call_kwargs := [] |} in
  let w := run_world 10 no_scc [NewModel (cfg_with "default"); NewModel (cfg_with "default");
                                QueryOn 0 call_a; QueryOn 1 call_b; QueryOn 0 call_a] in
  map (fun x => n_calls (snd x)) (instances w) = [2; 1]%nat /\
  float_repr (global_cost w) = "1.3000000000000003" /\
  map (fun x => float_repr (cost (snd x))) (instances w) = ["0.2"; "1.1"] /\
  float_repr (sum_instance_costs (instances w)) = "1.3" /\
  global_cost w <> sum_instance_costs (instances w).
Proof.
  vm_compute. split; [reflexivity|]. split; [reflexivity|]. split; [reflexivity|].
  split; [reflexivity|].
  intro H. apply (f_equal float_repr) in H. vm_compute in H. discriminate.
Qed.

(** C1, as the code has it: [N] successful calls on a fresh instance
    leave [n_calls = N] and its cost equal to the float sum of the calls'
    costs, added in order from [0.0]; the accumulator has the same costs
    added, in the same order, to its value.  In any run of the process
    (instances created, queries on them succeeding or not), the
    accumulator is the float sum of every cost counted, in the order
    counted, and each instance's [n_calls] is the number of costs it
    counted and its cost the float sum of them, in order; with rounding,
    that is not in general the float sum of the instances' costs. *)
Theorem call_and_cost_accounting stop scc cfg calls g0 rs st g :
  run_calls stop scc cfg init_state g0 calls = (rs, st, g) ->
  Forall (fun r => is_ok (q_outcome r) = true) rs ->
  n_calls st = length calls /\
  cost st = fold_left PrimFloat.add (map q_cost rs) 0%float /\
  g = fold_left PrimFloat.add (map q_cost rs) g0 /\
  (forall evs,
     let w := run_world stop scc evs in
     let log := counted_costs stop scc empty_world evs in
     global_cost w = fold_left PrimFloat.add (map snd log) 0%float /\
     (forall i cfg' st', nth_error (instances w) i = Some (cfg', st') ->
        n_calls st' = length (counted_of i log) /\
        cost st' = fold_left PrimFloat.add (counted_of i log) 0%float)).
Proof.
  intros Hrun Hok.
  destruct (run_calls_ok stop scc cfg calls init_state g0 rs st g Hrun Hok) as (H1 & H2 & H3).
  split; [exact H1|]. split; [exact H2|]. split; [exact H3|].
  intro evs. unfold run_world.
  exact (counted_costs_log stop scc evs empty_world [] eq_refl (Forall_nil _)
           ltac:(intros [|i] cfg' st' H; discriminate)).
Qed.

(* ================================================================== *)
(** * Witnesses: the theorems' hypotheses hold on concrete inputs *)

Lemma call_and_cost_accounting_witness :
  let res := run_calls 10 no_scc (cfg_with "default") init_state 0
               (repeat {| call_provider := steady_provider hello_response 1;
                          call_messages := user_hi; call_kwargs := [] |} 3) in
  Forall (fun r => is_ok (q_outcome r) = true) (fst (fst res)) /\
  n_calls (snd (fst res)) = 3%nat /\
  cost (snd (fst res)) = fold_left PrimFloat.add (map q_cost (fst (fst res))) 0%float.
Proof.
  intro res.
  assert (Hok : Forall (fun r => is_ok (q_outcome r) = true) (fst (fst res)))
    by (vm_compute; repeat constructor).
  destruct (call_and_cost_accounting 10 no_scc (cfg_with "default")
              (repeat {| call_provider := steady_provider hello_response 1;
                         call_messages := user_hi; call_kwargs := [] |} 3)
              0 (fst (fst res)) (snd (fst res)) (snd res)) as (H1 & H2 & _ & _).
  - vm_compute. reflexivity.
  - exact Hok.
  - split; [exact Hok|]. split; [exact H1|exact H2].
Defined.

Lemma _query_retry_attempts_witness :
  (rr_outcome (_query 10 (flaky_provider 3 hello_response 1) (cfg_with "default") user_hi [])
   = Ok hello_response /\
   rr_attempts (_query 10 (flaky_provider 3 hello_response 1) (cfg_with "default") user_hi [])
   = 4%nat) /\
  (rr_attempts (_query 10 (flaky_provider 3 hello_response 1) (cfg_with "default") user_hi [])
   = 4%nat).
Proof.
  assert (H : rr_outcome (_query 10 (flaky_provider 3 hello_response 1) (cfg_with "default") user_hi [])
              = Ok hello_response /\
              rr_attempts (_query 10 (flaky_provider 3 hello_response 1) (cfg_with "default") user_hi [])
              = 4%nat).
  { apply (proj1 (_query_retry_attempts 10 (flaky_provider 3 hello_response 1)
                    (cfg_with "default") user_hi [])).
    - lia.
    - intros n Hn. exists (ProviderError (OtherProviderError "RateLimitError") "429").
      split; [|reflexivity]. simpl.
      assert (Hle : Nat.leb n 3 = true) by (apply Nat.leb_le; lia). rewrite Hle. reflexivity.
    - reflexivity. }
  split; [exact H|exact (proj2 H)].
Defined.

Lemma cost_failure_handling_witness :
  q_outcome (query 10 no_scc (steady_provider hello_response 0) (cfg_with "default")
               init_state 0 user_hi [])
  = Raise (RuntimeError (cost_error_message (cfg_with "default")
                           "Cost must be > 0.0, got 0.0")).
Proof.
  destruct (proj1 (cost_failure_handling 10 no_scc (steady_provider hello_response 0)
                     (cfg_with "default") init_state 0 user_hi []
                     [[("role", PStr "user"); ("content", PStr "hi")]] hello_response
                     eq_refl eq_refl eq_refl) ltac:(discriminate))
    as (_ & _ & m & Ho & Hm & _).
  rewrite Ho, (Hm 0%float eq_refl). vm_compute. reflexivity.
Defined.

Lemma query_payload_fields_witness :
  Forall2 (fun m fm =>
      dict_keys fm = (["role"; "content"] ++ filter (fun k => dict_in k m) tool_fields)%list /\
      dict_lookup "role" fm = dict_lookup "role" m /\
      dict_lookup "content" fm = Some (dict_get "content" m (PStr "")) /\
      Forall (fun k => dict_lookup k fm = dict_lookup k m) tool_fields)
    [[("role", PStr "tool"); ("tool_call_id", PStr "t1"); ("extra", PInt 1)]]
    [[("role", PStr "tool"); ("content", PStr ""); ("tool_call_id", PStr "t1")]].
Proof.
  apply (query_payload_fields 10 no_scc (steady_provider hello_response 1) (cfg_with "default")
           init_state 0 [[("role", PStr "tool"); ("tool_call_id", PStr "t1"); ("extra", PInt 1)]] []).
  vm_compute. reflexivity.
Defined.

Lemma raising_query_state_witness :
  let r := query 10 no_scc (steady_provider no_choice_response 1) (cfg_with "default")
             init_state 0 user_hi [] in
  is_ok (q_outcome r) = false /\
  ((q_state r = init_state /\ q_global r = 0%float) \/
   (exists filtered response,
      filter_messages (prepare_messages no_scc (cfg_with "default") user_hi) = Ok filtered /\
      rr_outcome (_query 10 (steady_provider no_choice_response 1) (cfg_with "default") filtered [])
      = Ok response /\
      cost_check (steady_provider no_choice_response 1) (cfg_with "default") response = Ok (q_cost r) /\
      choices response = [] /\ q_outcome r = Raise IndexError /\
      q_state r = {| n_calls := S (n_calls init_state); cost := (cost init_state + q_cost r)%float |} /\
      q_global r = global_stats_add 0 (q_cost r))).
Proof.
  intro r. assert (H : is_ok (q_outcome r) = false) by (vm_compute; reflexivity).
  split; [exact H|].
  exact (raising_query_state 10 no_scc (steady_provider no_choice_response 1) (cfg_with "default")
           init_state 0 user_hi [] H).
Defined.

Lemma missing_base_url_fails_before_network_witness :
  context_retrieval_tool [] (always mock_ok_response) "find auth logic" 2
  = (Raise (ContextRetrievalError base_url_not_set), []).
Proof.
  exact (proj1 (missing_base_url_fails_before_network (always mock_ok_response) []
                  "find auth logic" 2 "https://github.com/u/r.git" None 1 false eq_refl)).
Defined.

Lemma upload_validates_repository_id_witness :
  fst (upload_repository mock_env
         (always {| status_code := 200; text := "";
                    json_body := Ok (PDict [("data", PDict [("status", PStr "ok")])]) |})
         "https://github.com/u/r.git" None)
  = Raise (RepositoryError ("Invalid upload response: missing 'repository_id' field. Got: "
                            ++ py_repr (PDict [("status", PStr "ok")]))).
Proof.
  apply (proj1 (upload_validates_repository_id
                  (always {| status_code := 200; text := "";
                             json_body := Ok (PDict [("data", PDict [("status", PStr "ok")])]) |})
                  mock_env "https://github.com/u/r.git" None
                  {| status_code := 200; text := "";
                     json_body := Ok (PDict [("data", PDict [("status", PStr "ok")])]) |}
                  [("data", PDict [("status", PStr "ok")])] [("status", PStr "ok")]
                  eq_refl (fun _ => eq_refl) ltac:(simpl; lia) eq_refl eq_refl)).
  reflexivity.
Defined.

Lemma context_retrieval_returns_data_witness :
  fst (context_retrieval_tool mock_env (always mock_ok_response) "find auth logic" 2) = Ok mock_data.
Proof.
  apply (proj1 (context_retrieval_returns_data (always mock_ok_response) mock_env "1" 1
                  "find auth logic" 2 mock_ok_response [("data", mock_data)] mock_data
                  eq_refl eq_refl ltac:(discriminate) eq_refl (fun _ => eq_refl)
                  ltac:(simpl; lia) eq_refl eq_refl)).
Defined.

Lemma context_retrieval_http_error_message_witness :
  fst (context_retrieval_tool mock_env (always mock_not_found) "find auth logic" 2)
  = Raise (ContextRetrievalError "CRA returned error status unknown").
Proof.
  exact (context_retrieval_http_error_message (always mock_not_found) mock_env "1" 1
           "find auth logic" 2 mock_not_found eq_refl eq_refl ltac:(discriminate) eq_refl
           (fun _ => eq_refl) ltac:(simpl; lia)).
Defined.

Lemma repository_id_validation_witness :
  context_retrieval_tool [("CRA_BASE_URL", "http://localhost:8000"); ("CRA_REPOSITORY_ID", "abc")]
    (always mock_ok_response) "find auth logic" 2
  = (Raise (ValueError "invalid literal for int() with base 10: 'abc'"), []).
Proof.
  destruct (proj2 (repository_id_validation (always mock_ok_response)
                     [("CRA_BASE_URL", "http://localhost:8000"); ("CRA_REPOSITORY_ID", "abc")]
                     "find auth logic" 2 eq_refl) "abc"
                  (ValueError "invalid literal for int() with base 10: 'abc'")
                  eq_refl ltac:(discriminate) ltac:(vm_compute; reflexivity)) as (m & Hm & H).
  injection Hm as <-. exact H.
Defined.

(* ================================================================== *)
(** * Further properties of the code *)

(** ** Keyword arguments: [self.config.model_kwargs | kwargs] *)

Lemma dict_set_lookup k k' v d :
  dict_lookup k (dict_set k' v d) = if String.eqb k k' then Some v else dict_lookup k d.
Proof.
  induction d as [|[k0 v0] d IH]; simpl.
  - destruct (String.eqb k k'); reflexivity.
  - destruct (String.eqb_spec k' k0) as [->|Hne]; simpl.
    + destruct (String.eqb k k0); reflexivity.
    + rewrite IH. destruct (String.eqb_spec k k') as [->|Hne'].
      * destruct (String.eqb_spec k' k0); [contradiction|reflexivity].
      * reflexivity.
Qed.

Lemma dict_merge_lookup_gen d2 :
  NoDup (dict_keys d2) ->
  forall d1 k, dict_lookup k (fold_left (fun acc kv => dict_set (fst kv) (snd kv) acc) d2 d1)
    = match dict_lookup k d2 with Some v => Some v | None => dict_lookup k d1 end.
Proof.
  induction d2 as [|[k' v'] d2 IH]; intros Hnd d1 k; simpl; [reflexivity|].
  inversion Hnd as [|? ? Hnotin Hnd']; subst.
  rewrite IH by exact Hnd'. rewrite dict_set_lookup.
  destruct (String.eqb_spec k k') as [->|Hne]; [|reflexivity].
  destruct (dict_lookup k' d2) eqn:E; [|reflexivity].
  exfalso. apply Hnotin. clear -E. induction d2 as [|[k0 v0] d2 IH]; simpl in *; [discriminate|].
  destruct (String.eqb_spec k' k0) as [->|]; auto.
Qed.

(** [litellm_model.py] lines 61-62: in the parameters sent to the
    provider, a call-specific keyword argument wins over the configured
    [model_kwargs], and a key absent from the call keeps its configured
    value.  ([kwargs] has distinct keys, as a Python dict does.) *)
Theorem provider_kwargs_override cfg kwargs :
  NoDup (dict_keys kwargs) ->
  forall k, dict_lookup k (dict_merge (model_kwargs cfg) kwargs)
    = match dict_lookup k kwargs with
      | Some v => Some v
      | None => dict_lookup k (model_kwargs cfg)
      end.
Proof. intros Hnd k. apply dict_merge_lookup_gen, Hnd. Qed.

(** ** The retry schedule *)

Lemma retry_from_sleeps {A} (f : nat -> result A) stop fuel :
  forall n,
  n <= rr_attempts (retry_from fuel stop f n) /\
  rr_sleeps (retry_from fuel stop f n)
  = map wait_exponential (seq n (rr_attempts (retry_from fuel stop f n) - n)).
Proof.
  induction fuel as [|fuel IH]; intro n; simpl;
    destruct (f n) as [a|e]; simpl; try (rewrite Nat.sub_diag; auto; fail);
    destruct (non_retryable e); simpl; try (rewrite Nat.sub_diag; auto; fail);
    destruct (Nat.leb stop n); simpl; try (rewrite Nat.sub_diag; auto; fail).
  destruct (IH (S n)) as [Hle Hs]. split; [lia|].
  rewrite Hs. replace (rr_attempts (retry_from fuel stop f (S n)) - n)
    with (S (rr_attempts (retry_from fuel stop f (S n)) - S n)) by lia.
  reflexivity.
Qed.

Lemma wait_exponential_bounds n : (4 <= wait_exponential n <= 60)%Z.
Proof. unfold wait_exponential. lia. Qed.

Lemma wait_exponential_mono n m : n <= m -> (wait_exponential n <= wait_exponential m)%Z.
Proof.
  intro H. unfold wait_exponential.
  destruct (Z.lt_ge_cases (Z.of_nat n - 1) 0).
  - rewrite (Z.pow_neg_r 2 (Z.of_nat n - 1)) by lia.
    pose proof (Z.pow_nonneg 2 (Z.of_nat m - 1)). lia.
  - assert (2 ^ (Z.of_nat n - 1) <= 2 ^ (Z.of_nat m - 1))%Z
      by (apply Z.pow_le_mono_r; lia).
    lia.
Qed.

Lemma waits_sorted n k : LocallySorted Z.le (map wait_exponential (seq n k)).
Proof.
  revert n. induction k as [|k IH]; intro n; simpl; [constructor|].
  destruct k as [|k]; simpl; [constructor|].
  constructor; [exact (IH (S n))|apply wait_exponential_mono; lia].
Qed.

(** [litellm_model.py] lines 43-58: in every run of [_query], the sleep
    before the retry that follows attempt [i] is
    [max(4, min(2 ** (i - 1), 60))]; so each wait lies between 4 and 60
    and the waits never shrink. *)
Theorem _query_sleep_schedule stop p cfg messages kwargs :
  let r := _query stop p cfg messages kwargs in
  rr_sleeps r = map wait_exponential (seq 1 (rr_attempts r - 1)) /\
  Forall (fun w => (4 <= w <= 60)%Z) (rr_sleeps r) /\
  LocallySorted Z.le (rr_sleeps r).
Proof.
  intro r. destruct (retry_from_sleeps (_query_body p cfg messages kwargs) stop stop 1)
    as [_ Hs].
  fold (retry stop (_query_body p cfg messages kwargs)) in Hs.
  fold (_query stop p cfg messages kwargs) in Hs. fold r in Hs.
  split; [exact Hs|]. rewrite Hs. split; [|apply waits_sorted].
  apply Forall_forall. intros w Hw. apply in_map_iff in Hw as (i & <- & _).
  apply wait_exponential_bounds.
Qed.

Lemma retry_from_exhausted {A} (f : nat -> result A) stop d :
  forall fuel n,
  n + d = stop -> stop <= fuel + n ->
  (forall m, n <= m <= stop -> exists e, f m = Raise e /\ retryable e = true) ->
  exists e, f stop = Raise e /\
    rr_outcome (retry_from fuel stop f n) = Raise (RetryError e) /\
    rr_attempts (retry_from fuel stop f n) = stop.
Proof.
  induction d as [|d IH]; intros fuel n Hd Hfuel Hfail.
  - rewrite Nat.add_0_r in Hd. subst n.
    destruct (Hfail stop) as (e & He & Hr); [lia|].
    unfold retryable in Hr. apply negb_true_iff in Hr.
    exists e. split; [exact He|].
    destruct fuel; simpl; rewrite He, Hr, Nat.leb_refl; auto.
  - destruct (Hfail n) as (e & He & Hr); [lia|].
    unfold retryable in Hr. apply negb_true_iff in Hr.
    assert (Hstop : Nat.leb stop n = false) by (apply Nat.leb_gt; lia).
    destruct fuel as [|fuel]; [lia|].
    simpl. rewrite He, Hr, Hstop. simpl.
    apply IH; [lia|lia|]. intros m Hm. apply Hfail. lia.
Qed.

(** [litellm_model.py] lines 43-58: when the provider raises a retryable
    error on every attempt, [_query] makes exactly [stop] attempts
    ([stop >= 1]) and raises tenacity's [RetryError] wrapping the error
    of the last attempt (the decorator does not set [reraise]). *)
Theorem _query_gives_up stop p cfg messages kwargs :
  1 <= stop ->
  (forall n, 1 <= n <= stop -> exists e,
     completion p n (model_name cfg) messages (dict_merge (model_kwargs cfg) kwargs) = Raise e /\
     retryable e = true) ->
  exists e,
    completion p stop (model_name cfg) messages (dict_merge (model_kwargs cfg) kwargs) = Raise e /\
    rr_outcome (_query stop p cfg messages kwargs) = Raise (RetryError e) /\
    rr_attempts (_query stop p cfg messages kwargs) = stop.
Proof.
  intros Hstop Hfail.
  destruct (retry_from_exhausted (_query_body p cfg messages kwargs) stop (stop - 1) stop 1)
    as (e & He & Ho & Ha); [lia|lia| |].
  - intros m Hm. destruct (Hfail m Hm) as (e & He & Hr). exists e. split; auto.
    apply _query_body_retryable; auto.
  - unfold _query_body in He.
    destruct (completion p stop (model_name cfg) messages
                (dict_merge (model_kwargs cfg) kwargs)) as [|e0] eqn:Ec; [discriminate|].
    destruct (Hfail stop) as (e1 & He1 & Hr1); [lia|].
    rewrite Ec in He1. injection He1 as <-. injection He as <-.
    exists e0. split; [reflexivity|].
    assert (Hid : add_auth_hint e0 = e0).
    { unfold retryable in Hr1. destruct e0 as [| | | | |[]| | | | |]; try reflexivity;
        discriminate. }
    rewrite Hid in Ho. split; assumption.
Qed.

Lemma retry_from_nonretryable {A} (f : nat -> result A) stop e d :
  forall fuel n,
  (forall m, n <= m < n + d -> exists e', f m = Raise e' /\ retryable e' = true) ->
  f (n + d) = Raise e -> non_retryable e = true -> n + d <= stop -> stop <= fuel + n ->
  rr_outcome (retry_from fuel stop f n) = Raise e /\ rr_attempts (retry_from fuel stop f n) = n + d.
Proof.
  induction d as [|d IH]; intros fuel n Hfail He Hn Hle Hfuel.
  - rewrite Nat.add_0_r in *. destruct fuel; simpl; rewrite He, Hn; auto.
  - destruct (Hfail n) as (e' & He' & Hr); [lia|].
    unfold retryable in Hr. apply negb_true_iff in Hr.
    assert (Hstop : Nat.leb stop n = false) by (apply Nat.leb_gt; lia).
    destruct fuel as [|fuel]; [lia|].
    simpl. rewrite He', Hr, Hstop. simpl.
    rewrite Nat.add_succ_r, <- Nat.add_succ_l in *.
    apply IH; auto; [|lia]. intros m Hm. apply Hfail. lia.
Qed.

(** [litellm_model.py] lines 43-66: when attempts [1 .. j-1] fail with
    retryable errors and attempt [j <= stop] fails with a non-retryable
    one, [_query] stops after exactly [j] attempts and re-raises that
    error itself (not a [RetryError]), with the hint appended to an
    [AuthenticationError]. *)
Theorem _query_nonretryable_after_retries stop p cfg messages kwargs j e :
  1 <= j <= stop ->
  (forall n, 1 <= n < j -> exists e',
     completion p n (model_name cfg) messages (dict_merge (model_kwargs cfg) kwargs) = Raise e' /\
     retryable e' = true) ->
  completion p j (model_name cfg) messages (dict_merge (model_kwargs cfg) kwargs) = Raise e ->
  non_retryable e = true ->
  rr_outcome (_query stop p cfg messages kwargs) = Raise (add_auth_hint e) /\
  rr_attempts (_query stop p cfg messages kwargs) = j.
Proof.
  intros Hj Hfail He Hn. unfold _query, retry.
  replace j with (1 + (j - 1)) by lia.
  apply retry_from_nonretryable; [| | |lia|lia].
  - intros m Hm. destruct (Hfail m) as (e' & He' & Hr); [lia|].
    exists e'. split; auto. apply _query_body_retryable; auto.
  - replace (1 + (j - 1)) with j by lia. unfold _query_body. rewrite He. reflexivity.
  - rewrite non_retryable_add_auth_hint. exact Hn.
Qed.

(** ** Messages without a role *)

Lemma filter_messages_raise ms e :
  filter_messages ms = Raise e -> e = KeyError "role".
Proof.
  induction ms as [|m ms IH]; simpl; [discriminate|].
  unfold filter_message at 1.
  destruct (dict_lookup "role" m); simpl; [|congruence].
  destruct (filter_messages ms); simpl; [discriminate|]. intro H. injection H as <-. auto.
Qed.

Lemma filter_messages_missing_role ms m :
  In m ms -> dict_lookup "role" m = None -> is_ok (filter_messages ms) = false.
Proof.
  induction ms as [|m' ms IH]; simpl; [contradiction|].
  intros [->|Hin] Hr.
  - unfold filter_message. rewrite Hr. reflexivity.
  - destruct (filter_message m'); simpl; [|reflexivity].
    specialize (IH Hin Hr). destruct (filter_messages ms); [discriminate|reflexivity].
Qed.

(** [litellm_model.py] lines 73-75: if any message (after the
    cache-control step) has no ["role"], [query] raises
    [KeyError('role')] before calling the provider: no attempt, nothing
    sent, and no counter or cost changed. *)
Theorem query_missing_role stop scc p cfg st g messages kwargs m :
  In m (prepare_messages scc cfg messages) -> dict_lookup "role" m = None ->
  let r := query stop scc p cfg st g messages kwargs in
  q_outcome r = Raise (KeyError "role") /\ q_attempts r = 0 /\ q_payload r = None /\
  q_state r = st /\ q_global r = g.
Proof.
  intros Hin Hr. pose proof (filter_messages_missing_role _ _ Hin Hr) as H.
  unfold query.
  destruct (filter_messages (prepare_messages scc cfg messages)) eqn:E; [discriminate|].
  apply filter_messages_raise in E. subst. simpl. auto.
Qed.

(** ** Shape of a successful result *)

(** [litellm_model.py] lines 107-130: a value returned by [query] is a
    dict with the keys ["content"] (the first choice's content, [""]
    when it is [None]) and ["extra"], plus ["tool_calls"] exactly when
    the first choice carries a non-empty tool-call list; that list then
    has one entry per tool call, with the same ids in the same order. *)
Theorem query_result_shape stop scc p cfg st g messages kwargs v :
  q_outcome (query stop scc p cfg st g messages kwargs) = Ok v ->
  exists filtered response message rest d,
    filter_messages (prepare_messages scc cfg messages) = Ok filtered /\
    rr_outcome (_query stop p cfg filtered kwargs) = Ok response /\
    choices response = message :: rest /\ v = PDict d /\
    dict_lookup "content" d
      = Some (PStr (match m_content message with Some s => s | None => "" end)) /\
    dict_lookup "extra" d = Some (PDict [("response", model_dump response)]) /\
    match m_tool_calls message with
    | Some ((_ :: _) as tcs) =>
        dict_keys d = ["content"; "extra"; "tool_calls"] /\
        exists l, dict_lookup "tool_calls" d = Some (PList l) /\
          map result_tool_call_id l = map (fun tc => Some (PStr (tc_id tc))) tcs
    | _ => dict_keys d = ["content"; "extra"]
    end.
Proof.
  intro Hv. pose proof (query_cases stop scc p cfg st g messages kwargs) as H. cbv zeta in H.
  destruct H as [(_ & _ & _ & e & He)|(f & resp & Hf & Hq & _ & _ & _ & Ho)];
    [congruence|].
  rewrite Hv in Ho. unfold normalize_response in Ho.
  destruct (choices resp) as [|message rest] eqn:Hc; [discriminate|].
  exists f, resp, message, rest.
  destruct (m_tool_calls message) as [[|tc tcs]|] eqn:Htc; injection Ho as ->;
    eexists; repeat split; eauto; simpl.
  eexists; split; [reflexivity|].
  simpl. f_equal. clear. induction tcs as [|t tcs IH]; simpl; f_equal; auto.
Qed.

(** ** Cost accounting outside [ignore_errors] *)

Lemma cost_check_not_le_zero p cfg response c :
  String.eqb (cost_tracking cfg) "ignore_errors" = false ->
  cost_check p cfg response = Ok c -> (c <=? 0)%float = false.
Proof.
  intro Hmode. unfold cost_check.
  destruct (completion_cost p response (model_name cfg)) as [c0|e].
  - destruct (c0 <=? 0)%float eqn:E; simpl.
    + rewrite Hmode. discriminate.
    + intro H; injection H as <-. exact E.
  - destruct (is_Exception e); [rewrite Hmode|]; discriminate.
Qed.

Lemma not_le_zero_cases x :
  (x <=? 0)%float = false -> (0 <? x)%float = true \/ is_nan x = true.
Proof.
  unfold is_nan.
  rewrite FloatAxioms.leb_spec, FloatAxioms.ltb_spec, FloatAxioms.eqb_spec, Prim2SF_zero.
  destruct (Prim2SF x) as [[]|[]| |[] m e]; simpl; intro H; try discriminate H; auto.
Qed.

(** [litellm_model.py] lines 86-105: in any cost-tracking mode other than
    ["ignore_errors"], a call to [query] either changes nothing or counts
    one call whose cost failed the test [cost <= 0.0], so is positive or
    NaN (NaN passes the check), and adds it to the instance's cost and to
    the accumulator. *)
Theorem counted_cost_not_le_zero stop scc p cfg st g messages kwargs :
  cost_tracking cfg <> "ignore_errors" ->
  let r := query stop scc p cfg st g messages kwargs in
  (q_state r = st /\ q_global r = g) \/
  (n_calls (q_state r) = S (n_calls st) /\ (q_cost r <=? 0)%float = false /\
   ((0 <? q_cost r)%float = true \/ is_nan (q_cost r) = true) /\
   cost (q_state r) = (cost st + q_cost r)%float /\ q_global r = (g + q_cost r)%float).
Proof.
  intros Hmode r. pose proof (query_cases stop scc p cfg st g messages kwargs) as H.
  cbv zeta in H. fold r in H.
  destruct H as [(H1 & H2 & _)|(f & resp & _ & _ & Hc & H1 & H2 & _)]; [left; auto|right].
  apply cost_check_not_le_zero in Hc; [|apply String.eqb_neq; exact Hmode].
  rewrite H1, H2. unfold global_stats_add. cbn [n_calls cost].
  split; [reflexivity|]. split; [exact Hc|]. split; [apply not_le_zero_cases; exact Hc|].
  split; reflexivity.
Qed.

(** A NaN cost passes the check: the call is counted and the instance's
    cost and the accumulator become NaN. *)
Example nan_cost_counted :
  let r := query 10 no_scc (steady_provider hello_response nan) (cfg_with "default")
             init_state 0 user_hi [] in
  is_ok (q_outcome r) = true /\ n_calls (q_state r) = 1%nat /\
  is_nan (cost (q_state r)) = true /\ is_nan (q_global r) = true.
Proof. vm_compute. repeat split. Qed.

(** [litellm_model.py] lines 86-92: a [KeyboardInterrupt] raised while
    computing the cost is not caught by [except Exception]: it propagates
    from [query] in every cost-tracking mode, including
    ["ignore_errors"], and the call is not counted. *)
Theorem cost_interrupt_propagates stop scc p cfg st g messages kwargs filtered response m :
  filter_messages (prepare_messages scc cfg messages) = Ok filtered ->
  rr_outcome (_query stop p cfg filtered kwargs) = Ok response ->
  completion_cost p response (model_name cfg) = Raise (ProviderError KeyboardInterrupt m) ->
  let r := query stop scc p cfg st g messages kwargs in
  q_outcome r = Raise (ProviderError KeyboardInterrupt m) /\ q_state r = st /\ q_global r = g.
Proof.
  intros Hf Hq Hc. unfold query. rewrite Hf, Hq. unfold cost_check. rewrite Hc. simpl. auto.
Qed.

Lemma str_app_assoc (a b c : string) : ((a ++ b) ++ c = a ++ (b ++ c))%string.
Proof. induction a as [|x a IH]; simpl; congruence. Qed.

Lemma str_app_nil_r (a : string) : (a ++ "")%string = a.
Proof. induction a as [|x a IH]; simpl; congruence. Qed.

Lemma raise_for_status_not_error r :
  ~ (400 <= status_code r < 600)%Z -> raise_for_status r = Ok tt.
Proof.
  intro H. unfold raise_for_status.
  destruct ((400 <=? status_code r) && (status_code r <? 500))%Z eqn:E1.
  { apply andb_true_iff in E1 as [E1 E1']. apply Z.leb_le in E1. apply Z.ltb_lt in E1'. lia. }
  destruct ((500 <=? status_code r) && (status_code r <? 600))%Z eqn:E2.
  { apply andb_true_iff in E2 as [E2 E2']. apply Z.leb_le in E2. apply Z.ltb_lt in E2'. lia. }
  reflexivity.
Qed.

Lemma raise_for_status_cases r :
  raise_for_status r = Ok tt \/ exists m, raise_for_status r = Raise (RequestsError HTTPError m).
Proof.
  unfold raise_for_status.
  destruct ((400 <=? status_code r) && (status_code r <? 500))%Z; [eauto|].
  destruct ((500 <=? status_code r) && (status_code r <? 600))%Z; eauto.
Qed.

Lemma repo_http_error_msg_prefix what r :
  exists t, repo_http_error_msg what r = (what ++ t)%string.
Proof.
  unfold repo_http_error_msg.
  set (e := (what ++ " failed with status " ++ z_to_string (status_code r))%string).
  assert (He : exists t, e = (what ++ t)%string) by (eexists; reflexivity).
  destruct He as (t & Ht).
  destruct (_ <- response_json r ;; _) as [m|x] eqn:E.
  - revert E. destruct (response_json r) as [j|]; cbn [bind]; [|discriminate].
    destruct (py_contains "error" j) as [[]|]; cbn [bind];
      [| |discriminate].
    + destruct (py_getitem j "error"); cbn [bind]; intro E; inversion E; subst.
      rewrite Ht, str_app_assoc. eauto.
    + destruct (py_contains "detail" j) as [[]|]; cbn [bind]; [| |discriminate].
      * destruct (py_getitem j "detail"); cbn [bind]; intro E; inversion E; subst.
        rewrite Ht, str_app_assoc. eauto.
      * intro E; inversion E; subst. eauto.
  - rewrite Ht, str_app_assoc. eauto.
Qed.

(** Two raised errors whose messages differ in a literal prefix. *)
Ltac neq_msg :=
  let E := fresh "E" in
  intro E; first [ discriminate E
                 | injection E as E; cbn [String.append] in E; discriminate E ].

Section CRA_more.

Variable send : Transport.

(** A [ConnectionError] of the transport becomes each function's domain
    error naming the URL it was sent to. *)
Theorem cra_connection_error env rid n query mrq https_url commit_id repository_id force m :
  env_missing (env_get "CRA_BASE_URL" env) = false ->
  env_get "CRA_REPOSITORY_ID" env = Some rid -> rid <> "" -> py_int rid = Ok n ->
  (forall req, send req = Raise (RequestsError ConnectionError m)) ->
  exists u, env_get "CRA_BASE_URL" env = Some u /\
  fst (context_retrieval_tool env send query mrq)
  = Raise (ContextRetrievalError
             ("Failed to connect to CRA at " ++ (u ++ "/context/retrieve") ++ ": " ++ m)) /\
  fst (upload_repository env send https_url commit_id)
  = Raise (RepositoryError
             ("Failed to connect to CRA at " ++ (u ++ "/repository/upload/") ++ ": " ++ m)) /\
  fst (delete_repository env send repository_id force)
  = Raise (RepositoryError
             ("Failed to connect to CRA at " ++ (u ++ "/repository/delete/") ++ ": " ++ m)).
Proof.
  intros Hb Hr Hne Hint Hsend.
  destruct (_get_cra_retrieval_url_ok env Hb) as (u & Hu1 & Hu).
  destruct (get_cra_base_url_ok env Hb) as (u' & Hu1' & Hu').
  rewrite Hu1 in Hu1'. injection Hu1' as <-.
  exists u. split; [exact Hu1|].
  destruct (context_retrieval_request send env rid n query mrq Hb Hr Hne Hint) as (c & E).
  assert (Hc : c = (u ++ "/context/retrieve")%string).
  { unfold context_retrieval_tool in E. rewrite Hu, Hr in E. unfold env_missing in E.
    destruct (String.eqb rid "") eqn:Es; [apply String.eqb_eq in Es; contradiction|].
    cbv beta iota zeta in E. rewrite Hint in E. injection E as _ E. congruence. }
  subst c. rewrite E. cbn [fst]. rewrite Hsend.
  unfold upload_repository, delete_repository. rewrite Hu', !Hsend.
  repeat split.
Qed.

(** Any other request exception of the transport becomes the
    ["... request failed: <e>"] error of each function. *)
Theorem cra_request_failure env rid n query mrq https_url commit_id repository_id force k m :
  env_missing (env_get "CRA_BASE_URL" env) = false ->
  env_get "CRA_REPOSITORY_ID" env = Some rid -> rid <> "" -> py_int rid = Ok n ->
  k <> ConnectionError -> k <> HTTPError ->
  (forall req, send req = Raise (RequestsError k m)) ->
  fst (context_retrieval_tool env send query mrq)
  = Raise (ContextRetrievalError ("CRA request failed: " ++ m)) /\
  fst (upload_repository env send https_url commit_id)
  = Raise (RepositoryError ("Upload request failed: " ++ m)) /\
  fst (delete_repository env send repository_id force)
  = Raise (RepositoryError ("Deletion request failed: " ++ m)).
Proof.
  intros Hb Hr Hne Hint Hk1 Hk2 Hsend.
  destruct (get_cra_base_url_ok env Hb) as (u' & _ & Hu').
  destruct (context_retrieval_request send env rid n query mrq Hb Hr Hne Hint) as (c & ->).
  unfold upload_repository, delete_repository. rewrite Hu'. cbn [fst]. rewrite !Hsend.
  destruct k; try contradiction; repeat split.
Qed.

(** On a 4xx/5xx response, upload and delete report the status, then the
    body's ["error"], else its ["detail"], else nothing; when the body is
    not JSON, its raw text. *)
Theorem repo_http_error_precedence env https_url commit_id repository_id force resp :
  env_missing (env_get "CRA_BASE_URL" env) = false ->
  (forall req, send req = Ok resp) ->
  (400 <= status_code resp < 600)%Z ->
  ((exists e, json_body resp = Raise e) \/ exists d, json_body resp = Ok (PDict d)) ->
  let suffix :=
    match json_body resp with
    | Ok (PDict d) =>
        match dict_lookup "error" d with
        | Some x => ": " ++ py_str x
        | None => match dict_lookup "detail" d with
                  | Some x => ": " ++ py_str x
                  | None => ""
                  end
        end
    | _ => ": " ++ text resp
    end in
  fst (upload_repository env send https_url commit_id)
  = Raise (RepositoryError
             ("Upload failed with status " ++ z_to_string (status_code resp) ++ suffix)) /\
  fst (delete_repository env send repository_id force)
  = Raise (RepositoryError
             ("Deletion failed with status " ++ z_to_string (status_code resp) ++ suffix)).
Proof.
  intros Hb Hsend Hst Hj suffix.
  destruct (get_cra_base_url_ok env Hb) as (u & _ & Hu).
  destruct (raise_for_status_error resp Hst) as (m & Hm).
  unfold upload_repository, delete_repository. rewrite Hu, !Hsend, Hm. cbn [fst bind repo_except].
  unfold repo_http_error_msg, suffix, response_json.
  destruct Hj as [(e & Hj)|(d & Hj)]; rewrite Hj; cbn [bind].
  - rewrite !str_app_assoc. split; reflexivity.
  - cbn [py_contains py_getitem]. unfold dict_in.
    destruct (dict_lookup "error" d) as [x|]; cbn [bind].
    + rewrite !str_app_assoc. split; reflexivity.
    + destruct (dict_lookup "detail" d) as [x|]; cbn [bind].
      * rewrite !str_app_assoc. split; reflexivity.
      * rewrite !str_app_nil_r. split; reflexivity.
Qed.

(** A non-error response whose body is not JSON: requests'
    [JSONDecodeError] is a [RequestException] (and a [ValueError]), and
    the [RequestException] clause comes first, so each function reports
    a failed request with the decoder's message, not a JSON parse
    failure. *)
Theorem invalid_json_is_request_failure env rid n query mrq https_url commit_id
    repository_id force resp m :
  env_missing (env_get "CRA_BASE_URL" env) = false ->
  env_get "CRA_REPOSITORY_ID" env = Some rid -> rid <> "" -> py_int rid = Ok n ->
  (forall req, send req = Ok resp) ->
  ~ (400 <= status_code resp < 600)%Z ->
  json_body resp = Raise (RequestsError JSONDecodeError m) ->
  fst (context_retrieval_tool env send query mrq)
  = Raise (ContextRetrievalError ("CRA request failed: " ++ m)) /\
  fst (upload_repository env send https_url commit_id)
  = Raise (RepositoryError ("Upload request failed: " ++ m)) /\
  fst (delete_repository env send repository_id force)
  = Raise (RepositoryError ("Deletion request failed: " ++ m)).
Proof.
  intros Hb Hr Hne Hint Hsend Hst Hj.
  destruct (get_cra_base_url_ok env Hb) as (u & _ & Hu).
  destruct (context_retrieval_request send env rid n query mrq Hb Hr Hne Hint) as (c & ->).
  unfold upload_repository, delete_repository. rewrite Hu. cbn [fst]. rewrite !Hsend.
  rewrite (raise_for_status_not_error resp Hst). unfold response_json. rewrite Hj.
  repeat split.
Qed.

(** Only 400-599 count as errors: on any other status, [delete_repository]
    returns the JSON body unchanged and [context_retrieval_tool] its
    ["data"] field. *)
Theorem non_error_status_is_success env rid n query mrq repository_id force resp v :
  env_missing (env_get "CRA_BASE_URL" env) = false ->
  env_get "CRA_REPOSITORY_ID" env = Some rid -> rid <> "" -> py_int rid = Ok n ->
  (forall req, send req = Ok resp) ->
  ~ (400 <= status_code resp < 600)%Z -> json_body resp = Ok v ->
  fst (delete_repository env send repository_id force) = Ok v /\
  (forall envelope d, v = PDict envelope -> dict_lookup "data" envelope = Some d ->
   fst (context_retrieval_tool env send query mrq) = Ok d).
Proof.
  intros Hb Hr Hne Hint Hsend Hst Hj.
  destruct (get_cra_base_url_ok env Hb) as (u & _ & Hu). split.
  - unfold delete_repository. rewrite Hu, Hsend, (raise_for_status_not_error resp Hst).
    unfold response_json. rewrite Hj. reflexivity.
  - intros envelope d -> Hd.
    destruct (context_retrieval_request send env rid n query mrq Hb Hr Hne Hint) as (c & ->).
    cbn [fst]. rewrite Hsend, (raise_for_status_not_error resp Hst).
    unfold response_json. rewrite Hj. cbn [bind py_getitem]. rewrite Hd. reflexivity.
Qed.

(** The envelope's ["data"] is read without a check: when it is missing,
    the [KeyError] escapes both functions unwrapped; when it is [null],
    retrieval returns [None] and upload's membership test raises a
    [TypeError], also unwrapped. *)
Theorem envelope_data_unchecked env rid n query mrq https_url commit_id resp envelope :
  env_missing (env_get "CRA_BASE_URL" env) = false ->
  env_get "CRA_REPOSITORY_ID" env = Some rid -> rid <> "" -> py_int rid = Ok n ->
  (forall req, send req = Ok resp) ->
  ~ (400 <= status_code resp < 600)%Z -> json_body resp = Ok (PDict envelope) ->
  (dict_lookup "data" envelope = None ->
   fst (context_retrieval_tool env send query mrq) = Raise (KeyError "data") /\
   fst (upload_repository env send https_url commit_id) = Raise (KeyError "data")) /\
  (dict_lookup "data" envelope = Some PNone ->
   fst (context_retrieval_tool env send query mrq) = Ok PNone /\
   fst (upload_repository env send https_url commit_id)
   = Raise (TypeError "argument of type 'NoneType' is not iterable")).
Proof.
  intros Hb Hr Hne Hint Hsend Hst Hj.
  destruct (get_cra_base_url_ok env Hb) as (u & _ & Hu).
  destruct (context_retrieval_request send env rid n query mrq Hb Hr Hne Hint) as (c & ->).
  unfold upload_repository. rewrite Hu. cbn [fst]. rewrite !Hsend.
  rewrite (raise_for_status_not_error resp Hst). unfold response_json. rewrite Hj.
  cbn [bind py_getitem].
  split; intro Hd; rewrite Hd; split; reflexivity.
Qed.

(** Upload's check is Python's [in]: a ["data"] string that mentions
    ["repository_id"] passes it and is returned as the upload result. *)
Theorem upload_accepts_string_data env https_url commit_id resp envelope s i :
  env_missing (env_get "CRA_BASE_URL" env) = false ->
  (forall req, send req = Ok resp) ->
  ~ (400 <= status_code resp < 600)%Z -> json_body resp = Ok (PDict envelope) ->
  dict_lookup "data" envelope = Some (PStr s) ->
  String.index 0 "repository_id" s = Some i ->
  fst (upload_repository env send https_url commit_id) = Ok (PStr s).
Proof.
  intros Hb Hsend Hst Hj Hd Hi.
  destruct (get_cra_base_url_ok env Hb) as (u & _ & Hu).
  unfold upload_repository. rewrite Hu, Hsend, (raise_for_status_not_error resp Hst).
  unfold response_json. rewrite Hj. cbn [bind py_getitem]. rewrite Hd.
  cbn [bind py_contains]. rewrite Hi. reflexivity.
Qed.

(** A non-error response whose [response.json()] raises a plain
    [ValueError] (not requests' [JSONDecodeError]), such as [int()]'s
    digit limit on a JSON integer of more than 4300 digits: the
    [ValueError] clause reports it as a JSON parse failure, with the
    error's message. *)
Theorem parse_error_clause_on_value_error env rid n query mrq https_url commit_id
    repository_id force resp m :
  env_missing (env_get "CRA_BASE_URL" env) = false ->
  env_get "CRA_REPOSITORY_ID" env = Some rid -> rid <> "" -> py_int rid = Ok n ->
  (forall req, send req = Ok resp) ->
  ~ (400 <= status_code resp < 600)%Z ->
  json_body resp = Raise (ValueError m) ->
  fst (context_retrieval_tool env send query mrq)
  = Raise (ContextRetrievalError ("Failed to parse CRA response as JSON: " ++ m)) /\
  fst (upload_repository env send https_url commit_id)
  = Raise (RepositoryError ("Failed to parse upload response as JSON: " ++ m)) /\
  fst (delete_repository env send repository_id force)
  = Raise (RepositoryError ("Failed to parse deletion response as JSON: " ++ m)).
Proof.
  intros Hb Hr Hne Hint Hsend Hst Hj.
  destruct (get_cra_base_url_ok env Hb) as (u & _ & Hu).
  destruct (context_retrieval_request send env rid n query mrq Hb Hr Hne Hint) as (c & ->).
  unfold upload_repository, delete_repository. rewrite Hu. cbn [fst]. rewrite !Hsend.
  rewrite (raise_for_status_not_error resp Hst). unfold response_json. rewrite Hj.
  repeat split.
Qed.

End CRA_more.

(* ------------------------------------------------------------------ *)
(** ** Instances of the further properties *)

Lemma provider_kwargs_override_witness :
  NoDup (dict_keys [("temperature", PInt 1)]) /\
  dict_lookup "temperature" (dict_merge (model_kwargs cfg_kwargs) [("temperature", PInt 1)])
  = Some (PInt 1) /\
  dict_lookup "max_tokens" (dict_merge (model_kwargs cfg_kwargs) [("temperature", PInt 1)])
  = Some (PInt 100).
Proof.
  assert (Hnd : NoDup (dict_keys [("temperature", PInt 1)])) by (repeat constructor; auto).
  split; [exact Hnd|]. split.
  - rewrite (provider_kwargs_override cfg_kwargs _ Hnd "temperature"). reflexivity.
  - rewrite (provider_kwargs_override cfg_kwargs _ Hnd "max_tokens"). reflexivity.
Defined.

Lemma _query_gives_up_witness :
  exists e,
    completion (flaky_provider 20 hello_response 1) 3 "gpt-4o" user_hi
      (dict_merge (model_kwargs (cfg_with "default")) []) = Raise e /\
    rr_outcome (_query 3 (flaky_provider 20 hello_response 1) (cfg_with "default") user_hi [])
    = Raise (RetryError e) /\
    rr_attempts (_query 3 (flaky_provider 20 hello_response 1) (cfg_with "default") user_hi [])
    = 3%nat.
Proof.
  apply (_query_gives_up 3 (flaky_provider 20 hello_response 1) (cfg_with "default") user_hi []).
  - lia.
  - intros n Hn. exists (ProviderError (OtherProviderError "RateLimitError") "429").
    split; [|reflexivity]. simpl.
    assert (Hle : Nat.leb n 20 = true) by (apply Nat.leb_le; lia). rewrite Hle. reflexivity.
Defined.

Lemma _query_nonretryable_after_retries_witness :
  rr_outcome (_query 10 (rejecting_provider 2 (ProviderError AuthenticationError "bad key"))
                (cfg_with "default") user_hi [])
  = Raise (add_auth_hint (ProviderError AuthenticationError "bad key")) /\
  rr_attempts (_query 10 (rejecting_provider 2 (ProviderError AuthenticationError "bad key"))
                 (cfg_with "default") user_hi []) = 3%nat.
Proof.
  apply (_query_nonretryable_after_retries 10
           (rejecting_provider 2 (ProviderError AuthenticationError "bad key"))
           (cfg_with "default") user_hi [] 3 (ProviderError AuthenticationError "bad key")).
  - lia.
  - intros n Hn. exists (ProviderError (OtherProviderError "RateLimitError") "429").
    split; [|reflexivity]. simpl.
    assert (Hle : Nat.leb n 2 = true) by (apply Nat.leb_le; lia). rewrite Hle. reflexivity.
  - reflexivity.
  - reflexivity.
Defined.

Lemma query_missing_role_witness :
  let r := query 10 no_scc (steady_provider hello_response 1) (cfg_with "default")
             init_state 0 [[("content", PStr "hi")]] [] in
  q_outcome r = Raise (KeyError "role") /\ q_attempts r = 0%nat /\ q_payload r = None /\
  q_state r = init_state /\ q_global r = 0%float.
Proof.
  apply (query_missing_role 10 no_scc (steady_provider hello_response 1) (cfg_with "default")
           init_state 0 [[("content", PStr "hi")]] [] [("content", PStr "hi")]).
  - vm_compute. left. reflexivity.
  - reflexivity.
Defined.

Lemma query_result_shape_witness :
  exists d,
    q_outcome (query 10 no_scc (steady_provider tool_call_response 1) (cfg_with "default")
                 init_state 0 user_hi []) = Ok (PDict d) /\
    dict_keys d = ["content"; "extra"; "tool_calls"] /\
    dict_lookup "content" d = Some (PStr "").
Proof.
  set (v := PDict [("content", PStr ""); ("extra", PDict [("response", PNone)]);
                   ("tool_calls", PList [tool_call_to_pyval
                      {| tc_id := "call_1"; tc_type := "function";
                         tc_function_name := "bash"; tc_function_arguments := "{}" |}])]).
  assert (Hv : q_outcome (query 10 no_scc (steady_provider tool_call_response 1)
                            (cfg_with "default") init_state 0 user_hi []) = Ok v)
    by (vm_compute; reflexivity).
  destruct (query_result_shape 10 no_scc (steady_provider tool_call_response 1)
              (cfg_with "default") init_state 0 user_hi [] v Hv)
    as (f & resp & msg & rest & d & Hf & Hq & Hc & Hd & Hcontent & _ & Htc).
  vm_compute in Hf. injection Hf as <-.
  vm_compute in Hq. injection Hq as <-.
  vm_compute in Hc. injection Hc as <- <-.
  exists d. rewrite <- Hd. split; [exact Hv|]. split; [apply (proj1 Htc)|exact Hcontent].
Defined.

Lemma counted_cost_not_le_zero_witness :
  let r := query 10 no_scc (steady_provider hello_response 1) (cfg_with "default")
             init_state 0 user_hi [] in
  (q_state r = init_state /\ q_global r = 0%float) \/
  (n_calls (q_state r) = S (n_calls init_state) /\ (q_cost r <=? 0)%float = false /\
   ((0 <? q_cost r)%float = true \/ is_nan (q_cost r) = true) /\
   cost (q_state r) = (cost init_state + q_cost r)%float /\ q_global r = (0 + q_cost r)%float).
Proof.
  exact (counted_cost_not_le_zero 10 no_scc (steady_provider hello_response 1) (cfg_with "default")
           init_state 0 user_hi [] ltac:(cbn; discriminate)).
Defined.

Lemma cost_interrupt_propagates_witness :
  let r := query 10 no_scc interrupted_provider (cfg_with "ignore_errors") init_state 0 user_hi [] in
  q_outcome r = Raise (ProviderError KeyboardInterrupt "") /\ q_state r = init_state /\
  q_global r = 0%float.
Proof.
  exact (cost_interrupt_propagates 10 no_scc interrupted_provider (cfg_with "ignore_errors")
           init_state 0 user_hi [] [[("role", PStr "user"); ("content", PStr "hi")]]
           hello_response "" eq_refl eq_refl eq_refl).
Defined.

Lemma cra_connection_error_witness :
  exists u, env_get "CRA_BASE_URL" mock_env = Some u /\
  fst (context_retrieval_tool mock_env refused "find auth logic" 2)
  = Raise (ContextRetrievalError
             ("Failed to connect to CRA at " ++ (u ++ "/context/retrieve") ++ ": "
              ++ "Connection refused")) /\
  fst (upload_repository mock_env refused "https://github.com/u/r.git" None)
  = Raise (RepositoryError
             ("Failed to connect to CRA at " ++ (u ++ "/repository/upload/") ++ ": "
              ++ "Connection refused")) /\
  fst (delete_repository mock_env refused 1 false)
  = Raise (RepositoryError
             ("Failed to connect to CRA at " ++ (u ++ "/repository/delete/") ++ ": "
              ++ "Connection refused")).
Proof.
  exact (cra_connection_error refused mock_env "1" 1 "find auth logic" 2
           "https://github.com/u/r.git" None 1 false "Connection refused"
           eq_refl eq_refl ltac:(discriminate) eq_refl (fun _ => eq_refl)).
Defined.

Lemma cra_request_failure_witness :
  fst (context_retrieval_tool mock_env timed_out "find auth logic" 2)
  = Raise (ContextRetrievalError ("CRA request failed: " ++ "Read timed out")) /\
  fst (upload_repository mock_env timed_out "https://github.com/u/r.git" None)
  = Raise (RepositoryError ("Upload request failed: " ++ "Read timed out")) /\
  fst (delete_repository mock_env timed_out 1 false)
  = Raise (RepositoryError ("Deletion request failed: " ++ "Read timed out")).
Proof.
  exact (cra_request_failure timed_out mock_env "1" 1 "find auth logic" 2
           "https://github.com/u/r.git" None 1 false OtherRequestException "Read timed out"
           eq_refl eq_refl ltac:(discriminate) eq_refl ltac:(discriminate) ltac:(discriminate)
           (fun _ => eq_refl)).
Defined.

Lemma repo_http_error_precedence_witness :
  fst (upload_repository mock_env (always mock_detail_error) "https://github.com/u/r.git" None)
  = Raise (RepositoryError ("Upload failed with status " ++ z_to_string 404 ++ ": gone")) /\
  fst (delete_repository mock_env (always mock_detail_error) 1 false)
  = Raise (RepositoryError ("Deletion failed with status " ++ z_to_string 404 ++ ": gone")).
Proof.
  exact (repo_http_error_precedence (always mock_detail_error) mock_env
           "https://github.com/u/r.git" None 1 false mock_detail_error
           eq_refl (fun _ => eq_refl) ltac:(simpl; lia) (or_intror (ex_intro _ _ eq_refl))).
Defined.

Lemma invalid_json_is_request_failure_witness :
  fst (context_retrieval_tool mock_env (always mock_html_ok) "find auth logic" 2)
  = Raise (ContextRetrievalError
             ("CRA request failed: " ++ "Expecting value: line 1 column 1 (char 0)")) /\
  fst (upload_repository mock_env (always mock_html_ok) "https://github.com/u/r.git" None)
  = Raise (RepositoryError
             ("Upload request failed: " ++ "Expecting value: line 1 column 1 (char 0)")) /\
  fst (delete_repository mock_env (always mock_html_ok) 1 false)
  = Raise (RepositoryError
             ("Deletion request failed: " ++ "Expecting value: line 1 column 1 (char 0)")).
Proof.
  exact (invalid_json_is_request_failure (always mock_html_ok) mock_env "1" 1 "find auth logic" 2
           "https://github.com/u/r.git" None 1 false mock_html_ok
           "Expecting value: line 1 column 1 (char 0)"
           eq_refl eq_refl ltac:(discriminate) eq_refl (fun _ => eq_refl)
           ltac:(simpl; lia) eq_refl).
Defined.

Lemma non_error_status_is_success_witness :
  fst (delete_repository mock_env (always mock_redirect) 1 false)
  = Ok (PDict [("data", mock_data)]) /\
  fst (context_retrieval_tool mock_env (always mock_redirect) "find auth logic" 2) = Ok mock_data.
Proof.
  destruct (non_error_status_is_success (always mock_redirect) mock_env "1" 1 "find auth logic" 2
              1 false mock_redirect (PDict [("data", mock_data)])
              eq_refl eq_refl ltac:(discriminate) eq_refl (fun _ => eq_refl)
              ltac:(simpl; lia) eq_refl) as [H1 H2].
  split; [exact H1|exact (H2 _ mock_data eq_refl eq_refl)].
Defined.

Lemma envelope_data_unchecked_witness :
  fst (context_retrieval_tool mock_env (always mock_no_data) "find auth logic" 2)
  = Raise (KeyError "data") /\
  fst (upload_repository mock_env (always mock_no_data) "https://github.com/u/r.git" None)
  = Raise (KeyError "data").
Proof.
  exact (proj1 (envelope_data_unchecked (always mock_no_data) mock_env "1" 1 "find auth logic" 2
                  "https://github.com/u/r.git" None mock_no_data [("status", PStr "ok")]
                  eq_refl eq_refl ltac:(discriminate) eq_refl (fun _ => eq_refl)
                  ltac:(simpl; lia) eq_refl) eq_refl).
Defined.

Lemma upload_accepts_string_data_witness :
  fst (upload_repository mock_env (always mock_string_data) "https://github.com/u/r.git" None)
  = Ok (PStr "repository_id: 7").
Proof.
  exact (upload_accepts_string_data (always mock_string_data) mock_env
           "https://github.com/u/r.git" None mock_string_data
           [("data", PStr "repository_id: 7")] "repository_id: 7" 0
           eq_refl (fun _ => eq_refl) ltac:(simpl; lia) eq_refl eq_refl eq_refl).
Defined.

Lemma parse_error_clause_on_value_error_witness :
  fst (context_retrieval_tool mock_env (always mock_big_int_ok) "find auth logic" 2)
  = Raise (ContextRetrievalError
             ("Failed to parse CRA response as JSON: " ++ int_limit_message 5000)) /\
  fst (upload_repository mock_env (always mock_big_int_ok) "https://github.com/u/r.git" None)
  = Raise (RepositoryError
             ("Failed to parse upload response as JSON: " ++ int_limit_message 5000)) /\
  fst (delete_repository mock_env (always mock_big_int_ok) 1 false)
  = Raise (RepositoryError
             ("Failed to parse deletion response as JSON: " ++ int_limit_message 5000)).
Proof.
  exact (parse_error_clause_on_value_error (always mock_big_int_ok) mock_env "1" 1
           "find auth logic" 2 "https://github.com/u/r.git" None 1 false mock_big_int_ok
           (int_limit_message 5000)
           eq_refl eq_refl ltac:(discriminate) eq_refl (fun _ => eq_refl)
           ltac:(simpl; lia) eq_refl).
Defined.
